(** * Student risk prediction: rule-based fallback, classifier path,
      batch updater, training entry point and academic metrics.

    A shallow embedding of [predictor.py], [predict.py], [train.py] and
    [utils.calculate_academic_metrics].  Python values are a small tagged
    union, exceptions are an error monad, Python floats are IEEE binary64
    (primitive floats), objects and dicts read by key are finite maps.

    Further on: the helpers of [utils.py] ([truncate_text],
    [format_phone_number], [safe_float], [safe_int],
    [validate_student_data], [calculate_semester_progress],
    [generate_student_report]), [User.has_role] of [models.py], the risk
    label seeded by [init_db.py] and the endpoint [api_update_risks] of
    [app.py]. *)

From Stdlib Require Import ZArith Bool List Lia Ascii.
From Stdlib Require Import PrimFloat SpecFloat FloatOps FloatAxioms.
From stdpp Require Import gmap strings.

Set Warnings "-register-all".

(* ===================================================================== *)
(** ** The Python fragment the sources rely on *)
(* ===================================================================== *)

Module Py.

(** Exception classes that the modelled code can meet.  All of them are
    subclasses of [Exception]. *)
Inductive exn : Set :=
| AttributeError
| TypeError
| ValueError
| OverflowError
| IndexError
| FileNotFoundError
| UnpicklingError
| RuntimeError.

(** A computation either returns a value or raises. *)
Inductive result (A : Type) : Type :=
| Ok (a : A)
| Raise (e : exn).
Arguments Ok {A} a.
Arguments Raise {A} e.

(** Sequencing: an exception skips the rest ([x ← c; k] below). *)
#[global] Instance result_ret : MRet result := fun _ a => Ok a.
#[global] Instance result_bind : MBind result := fun _ _ k c =>
  match c with
  | Ok a => k a
  | Raise e => Raise e
  end.

(** [try: c except Exception: h] *)
Definition try_except {A : Type} (c : result A) (h : exn -> result A) : result A :=
  match c with
  | Ok a => Ok a
  | Raise e => h e
  end.

(** Values.  [PyDict] keeps insertion order, as Python dicts do. *)
Inductive pyval : Type :=
| PyNone
| PyBool (b : bool)
| PyInt (z : Z)
| PyFloat (f : float)
| PyStr (s : string)
| PyDict (d : list (string * pyval)).

(** An object (attributes by name) or a dict with string keys. *)
Abbreviation obj := (gmap string pyval).

(** [o.name]: a missing attribute raises [AttributeError]. *)
Definition getattr (o : obj) (name : string) : result pyval :=
  match o !! name with
  | Some v => Ok v
  | None => Raise AttributeError
  end.

(** [d.get(key, dflt)] *)
Definition dict_get_default (d : obj) (key : string) (dflt : pyval) : pyval :=
  match d !! key with
  | Some v => v
  | None => dflt
  end.

(** [key in d] for a value [d]; only dicts have keys. *)
Definition has_key (v : pyval) (key : string) : bool :=
  match v with
  | PyDict d => existsb (fun kv => String.eqb (fst kv) key) d
  | _ => false
  end.

(** Nearest binary64 value of an integer (round half to even); integers
    beyond the double range give an infinity. *)
Definition float_of_Z (z : Z) : float :=
  SF2Prim (binary_normalize prec emax z 0 false).

(** [v < k] for an int literal [k].  Python compares a float with an int
    exactly; every literal the sources use is far below 2^53, so the
    comparison coincides with the IEEE one against [float_of_Z k].  A
    NaN compares false.  [None], strings and dicts are unorderable. *)
Definition py_lt_int (v : pyval) (k : Z) : result bool :=
  match v with
  | PyBool b => Ok (Z.b2z b <? k)%Z
  | PyInt z => Ok (z <? k)%Z
  | PyFloat f => Ok (PrimFloat.ltb f (float_of_Z k))
  | PyNone | PyStr _ | PyDict _ => Raise TypeError
  end.

(** [v == k] for an int key [k]; values of different kinds are unequal. *)
Definition py_eq_int (v : pyval) (k : Z) : bool :=
  match v with
  | PyBool b => (Z.b2z b =? k)%Z
  | PyInt z => (z =? k)%Z
  | PyFloat f => PrimFloat.eqb f (float_of_Z k)
  | PyNone | PyStr _ | PyDict _ => false
  end.

(** [c1 or c2]: the right operand is evaluated only when the left one is
    false, so an exception of the right operand can be masked. *)
Definition py_or (c1 c2 : result bool) : result bool :=
  c1 ≫= fun b : bool => if b then Ok true else c2.

(** Only dicts are unhashable among the modelled values. *)
Definition hashable (v : pyval) : bool :=
  match v with
  | PyDict _ => false
  | _ => true
  end.

(** [d.get(v, dflt)] on a dict with int keys.  Numbers hash like the int
    they equal, so the lookup finds the key that [v] is equal to. *)
Definition int_dict_get (d : list (Z * string)) (v : pyval) (dflt : string)
  : result string :=
  if hashable v then
    match find (fun kv => py_eq_int v (fst kv)) d with
    | Some kv => Ok (snd kv)
    | None => Ok dflt
    end
  else Raise TypeError.

(** [l[0]] *)
Definition first_item {A : Type} (l : list A) : result A :=
  match l with
  | x :: _ => Ok x
  | [] => Raise IndexError
  end.

End Py.

Import Py.

(* ===================================================================== *)
(** ** predictor.py *)
(* ===================================================================== *)

Module Predictor.

(** What [pickle.load] hands back is used through one call only:
    [model.predict(rows)], which returns a sequence or raises. *)
Definition model : Type := list (list pyval) -> result (list pyval).

(** Outcome of [open(model_path, 'rb')] followed by [pickle.load(f)]. *)
Definition model_load : Type := result model.

Definition risk_levels : list (Z * string) :=
  [(0%Z, "Low Risk"); (1%Z, "Medium Risk"); (2%Z, "High Risk")].

(** The list built under "Prepare features for prediction". *)
Definition features (student_data : obj) : result (list pyval) :=
  g ← getattr student_data "grade_average";
  a ← getattr student_data "attendance_rate";
  Ok [g; a].

Definition calculate_risk_level (student : obj) : result pyval :=
  high ← py_or
           (g ← getattr student "grade_average"; py_lt_int g 50)
           (a ← getattr student "attendance_rate"; py_lt_int a 60);
  if high : bool then Ok (PyStr "High Risk")
  else
    medium ← py_or
               (g ← getattr student "grade_average"; py_lt_int g 70)
               (a ← getattr student "attendance_rate"; py_lt_int a 75);
    if medium : bool then Ok (PyStr "Medium Risk")
    else Ok (PyStr "Low Risk").

(** The body of the [try] block of [predict_student_risk]. *)
Definition predict_with_model (load : model_load) (student_data : obj)
  : result pyval :=
  m ← load;
  fs ← features student_data;
  out ← m [fs];
  prediction ← first_item out;
  label ← int_dict_get risk_levels prediction "Unknown Risk";
  Ok (PyStr label).

Definition predict_student_risk (load : model_load) (student_data : obj)
  : result pyval :=
  try_except (predict_with_model load student_data)
             (fun _ => calculate_risk_level student_data).

(** The ORM session: the student objects it hands out (with their pending
    attribute writes) and what the last commit made durable. *)
Record db : Type := {
  session_students : list obj;
  committed_students : list obj
}.

(** The [for] loop.  It stops at the first exception, leaving the
    students already visited modified in the session. *)
Fixpoint update_loop (load : model_load) (students : list obj)
  : list obj * option exn :=
  match students with
  | [] => ([], None)
  | student :: rest =>
      match predict_student_risk load student with
      | Ok risk_level =>
          let (rest', r) := update_loop load rest in
          (<["risk_level" := risk_level]> student :: rest', r)
      | Raise e => (student :: rest, Some e)
      end
  end.

(** Returns [None]; the commit is only reached when the loop completes. *)
Definition update_all_student_risks (load : model_load) (st : db)
  : result unit * db :=
  let (students, r) := update_loop load (session_students st) in
  match r with
  | None =>
      (Ok tt, {| session_students := students; committed_students := students |})
  | Some e =>
      (Raise e, {| session_students := students;
                   committed_students := committed_students st |})
  end.

End Predictor.

(* ===================================================================== *)
(** ** predict.py *)
(* ===================================================================== *)

Module Predict.

(** What the function writes to standard output:
    [print(f"Error in risk prediction: {e}")]. *)
Inductive line : Set :=
| ErrorInRiskPrediction (e : exn).

Section WithParser.

(** The numeric-literal parser behind [float(s)] for a string [s];
    [None] stands for the [ValueError] of a malformed string. *)
Variable float_of_string : string -> option float.

(** [float(v)].  An int that rounds beyond the double range raises
    [OverflowError], which is neither a [ValueError] nor a
    [TypeError]. *)
Definition py_float (v : pyval) : result float :=
  match v with
  | PyFloat f => Ok f
  | PyBool b => Ok (if b then 1%float else 0%float)
  | PyInt z =>
      let f := float_of_Z z in
      if PrimFloat.is_infinity f then Raise OverflowError else Ok f
  | PyStr s =>
      match float_of_string s with
      | Some f => Ok f
      | None => Raise ValueError
      end
  | PyNone | PyDict _ => Raise TypeError
  end.

(** [try: x = float(x)  except (ValueError, TypeError): x = 0] *)
Definition to_numeric (v : pyval) : result pyval :=
  match py_float v with
  | Ok f => Ok (PyFloat f)
  | Raise ValueError | Raise TypeError => Ok (PyInt 0)
  | Raise e => Raise e
  end.

(** The body of the outer [try] block. *)
Definition risk_rules (student_data : obj) : result pyval :=
  grade ← to_numeric (dict_get_default student_data "grade" (PyInt 0));
  attendance ← to_numeric (dict_get_default student_data "attendance" (PyInt 0));
  high ← py_or (py_lt_int grade 60) (py_lt_int attendance 70);
  if high : bool then Ok (PyStr "High Risk")
  else
    medium ← py_or (py_lt_int grade 75) (py_lt_int attendance 80);
    if medium : bool then Ok (PyStr "Medium Risk")
    else Ok (PyStr "Low Risk").

(** Returned value and printed lines. *)
Definition predict_student_risk (student_data : obj) : pyval * list line :=
  match risk_rules student_data with
  | Ok label => (label, [])
  | Raise e => (PyStr "Unknown Risk", [ErrorInRiskPrediction e])
  end.

End WithParser.

End Predict.

(* ===================================================================== *)
(** ** utils.py: calculate_academic_metrics *)
(* ===================================================================== *)

Module Utils.

(** Number of [True] entries of a bool array. *)
Definition present_count (attendance : list bool) : Z :=
  Z.of_nat (length (filter (fun b : bool => b) attendance)).

(** [np.mean] of a bool array: the float64 sum of the entries (their
    count, exact below 2^53) divided by the size. *)
Definition np_mean_bool (attendance : list bool) : float :=
  (float_of_Z (present_count attendance)
   / float_of_Z (Z.of_nat (length attendance)))%float.

Section WithNumpy.

(** numpy's reductions over a non-empty float64 array. *)
Variables np_mean np_std np_min np_max : list float -> float.

Definition calculate_academic_metrics
  (grades : list float) (attendance : list bool) : list (string * pyval) :=
  match grades with
  | [] =>
      [ ("grade_average", PyInt 0);
        ("grade_std", PyInt 0);
        ("attendance_rate", PyInt 0);
        ("total_assignments", PyInt 0);
        ("completion_rate", PyInt 0) ]
  | _ :: _ =>
      [ ("grade_average", PyFloat (np_mean grades));
        ("grade_std", PyFloat (np_std grades));
        ("grade_min", PyFloat (np_min grades));
        ("grade_max", PyFloat (np_max grades));
        ("attendance_rate",
          if (0 <? length attendance)%nat
          then PyFloat (np_mean_bool attendance * 100)%float
          else PyInt 0);
        ("total_assignments", PyInt (Z.of_nat (length grades)));
        ("completion_rate", PyFloat 100%float) ]
  end.

End WithNumpy.

(** [metrics[key]] *)
Definition item (metrics : list (string * pyval)) (key : string) : option pyval :=
  snd <$> find (fun kv => String.eqb (fst kv) key) metrics.

(** [list(metrics.keys())] *)
Definition keys (metrics : list (string * pyval)) : list string :=
  map fst metrics.

(** The rate as the specification words it: present_count / total_count
    × 100 over the available records, 0 if there are none. *)
Definition attendance_rate_spec (attendance : list bool) : pyval :=
  match attendance with
  | [] => PyInt 0
  | _ :: _ => PyFloat (np_mean_bool attendance * 100)%float
  end.

End Utils.

(* ===================================================================== *)
(** ** train.py: train_model *)
(* ===================================================================== *)

Module Train.

(** What [prepare_training_data] returns: [X, y, feature_names]. *)
Record training_data : Type := {
  X : list (list float);
  y : list Z;
  feature_names : list string
}.

(** [X.shape[0]] *)
Definition shape0 (rows : list (list float)) : nat := length rows.

Section WithLibraries.

(** A fitted [RandomForestClassifier]. *)
Variable classifier : Type.

(** The collaborators [train_model] calls: the data preparation of the
    predictor module (its outcome for the session at hand) and the
    scikit-learn entry points.  Each may raise. *)
Variable prepare_training_data : result training_data.
Variable train_test_split :
  list (list float) -> list Z ->
  result (list (list float) * list (list float) * list Z * list Z).
Variable fit : list (list float) -> list Z -> result classifier.
Variable predict : classifier -> list (list float) -> result (list Z).
Variable accuracy_score : list Z -> list Z -> result float.
Variable classification_report : list Z -> list Z -> result string.

(** What [joblib.dump] leaves in a file. *)
Inductive artifact : Type :=
| ModelPkl (m : classifier)
| FeatureInfoPkl (names : list string) (accuracy : float).

(** Printed lines; the formatted ones keep their arguments. *)
Inductive line : Type :=
| Text (s : string)
| TrainingSamples (n : nat)
| TestSamples (n : nat)
| Accuracy (a : float)
| Report (r : string)
| ModelSavedTo (path : string)
| ErrorDuringTraining (e : exn).

(** The process state [train_model] acts on: the files under the project
    root, standard output, and whether the database session is open. *)
Record world : Type := {
  files : gmap string artifact;
  stdout : list line;
  session_open : bool
}.

(** Stateful computations that may raise. *)
Definition M (A : Type) : Type := world -> result A * world.

Definition ret {A : Type} (a : A) : M A := fun w => (Ok a, w).

Definition bind {A B : Type} (c : M A) (k : A -> M B) : M B :=
  fun w =>
    match c w with
    | (Ok a, w') => k a w'
    | (Raise e, w') => (Raise e, w')
    end.

Definition lift {A : Type} (r : result A) : M A := fun w => (r, w).

Definition print (l : line) : M unit :=
  fun w => (Ok tt, {| files := files w;
                      stdout := stdout w ++ [l];
                      session_open := session_open w |}).

(** [joblib.dump(value, project_root / path)]; the [data] directory is
    taken to exist. *)
Definition dump (value : artifact) (path : string) : M unit :=
  fun w => (Ok tt, {| files := <[path := value]> (files w);
                      stdout := stdout w;
                      session_open := session_open w |}).

Definition get_session : M unit :=
  fun w => (Ok tt, {| files := files w;
                      stdout := stdout w;
                      session_open := true |}).

Definition session_close : M unit :=
  fun w => (Ok tt, {| files := files w;
                      stdout := stdout w;
                      session_open := false |}).

(** [try: body except Exception as e: handler(e); raise finally: final] *)
Definition try_reraise_finally {A : Type}
  (body : M A) (handler : exn -> M unit) (final : M unit) : M A :=
  fun w =>
    match body w with
    | (Ok a, w1) =>
        match final w1 with
        | (Ok _, w2) => (Ok a, w2)
        | (Raise e, w2) => (Raise e, w2)
        end
    | (Raise e, w1) =>
        match handler e w1 with
        | (Ok _, w2) =>
            match final w2 with
            | (Ok _, w3) => (Raise e, w3)
            | (Raise e', w3) => (Raise e', w3)
            end
        | (Raise e', w2) =>
            match final w2 with
            | (_, w3) => (Raise e', w3)
            end
        end
    end.

Notation "x <- c ;; k" := (bind c (fun x => k))
  (at level 100, c at next level, right associativity).
Notation "c ;; k" := (bind c (fun _ => k))
  (at level 100, right associativity).

Definition model_path : string := "data/trained_model.pkl".
Definition feature_info_path : string := "data/feature_info.pkl".

(** The statements after the emptiness test. *)
Definition fit_and_save (data : training_data) : M unit :=
  split <- lift (train_test_split (X data) (y data)) ;;
  let '(X_train, X_test, y_train, y_test) := split in
  print (TrainingSamples (shape0 X_train)) ;;
  print (TestSamples (shape0 X_test)) ;;
  print (Text "🤖 Training Random Forest model...") ;;
  model <- lift (fit X_train y_train) ;;
  y_pred <- lift (predict model X_test) ;;
  accuracy <- lift (accuracy_score y_test y_pred) ;;
  print (Text "✅ Model trained successfully!") ;;
  print (Accuracy accuracy) ;;
  (* print("\n...") writes an empty line and then the heading *)
  print (Text "") ;;
  print (Text "📋 Classification Report:") ;;
  report <- lift (classification_report y_test y_pred) ;;
  print (Report report) ;;
  dump (ModelPkl model) model_path ;;
  print (ModelSavedTo model_path) ;;
  dump (FeatureInfoPkl (feature_names data) accuracy) feature_info_path ;;
  print (Text "🎉 Model training completed successfully!").

(** The body of the [try] block. *)
Definition train_body : M unit :=
  print (Text "📊 Preparing training data...") ;;
  data <- lift prepare_training_data ;;
  if (shape0 (X data) =? 0)%nat
  then print (Text "❌ No training data available.")
  else fit_and_save data.

Definition train_model : M unit :=
  print (Text "🔬 Starting model training...") ;;
  get_session ;;
  try_reraise_finally train_body
    (fun e => print (ErrorDuringTraining e))
    session_close.

End WithLibraries.

End Train.

(* ===================================================================== *)
(** ** More of the Python fragment: further exceptions, truthiness,
       tests on strings, slices *)
(* ===================================================================== *)

Module PyMore.

(** [KeyError] and [ZeroDivisionError] beside the exceptions of [Py]. *)
Inductive exc : Set :=
| Builtin (e : exn)
| KeyError
| ZeroDivisionError.

Inductive outcome (A : Type) : Type :=
| Return (a : A)
| Throw (e : exc).
Arguments Return {A} a.
Arguments Throw {A} e.

#[global] Instance outcome_ret : MRet outcome := fun _ a => Return a.
#[global] Instance outcome_bind : MBind outcome := fun _ _ k c =>
  match c with
  | Return a => k a
  | Throw e => Throw e
  end.

Definition of_result {A : Type} (r : result A) : outcome A :=
  match r with
  | Ok a => Return a
  | Raise e => Throw (Builtin e)
  end.

(** [bool(v)]: what [if v] and [not v] test.  A NaN is true. *)
Definition truthy (v : pyval) : bool :=
  match v with
  | PyNone => false
  | PyBool b => b
  | PyInt z => negb (z =? 0)%Z
  | PyFloat f => negb (PrimFloat.eqb f 0%float)
  | PyStr s => negb (String.eqb s "")
  | PyDict d => negb (Nat.eqb (length d) 0)
  end.

(** [v == s] for a string literal [s]. *)
Definition py_eq_str (v : pyval) (s : string) : bool :=
  match v with
  | PyStr t => String.eqb t s
  | _ => false
  end.

Fixpoint contains_char (c : Ascii.ascii) (s : string) : bool :=
  match s with
  | EmptyString => false
  | String c' rest => Ascii.eqb c' c || contains_char c rest
  end.

(** [c in v] for a one-character string [c]: substring test on a string,
    key test on a dict, [TypeError] on what is not iterable. *)
Definition py_contains_char (c : Ascii.ascii) (v : pyval) : result bool :=
  match v with
  | PyStr s => Ok (contains_char c s)
  | PyDict d =>
      Ok (existsb (fun kv => String.eqb (fst kv) (String c EmptyString)) d)
  | PyNone | PyBool _ | PyInt _ | PyFloat _ => Raise TypeError
  end.

(** [v.startswith((c1, c2))]; only strings have the method. *)
Definition py_startswith_either (c1 c2 : Ascii.ascii) (v : pyval) : result bool :=
  match v with
  | PyStr (String c _) => Ok (Ascii.eqb c c1 || Ascii.eqb c c2)
  | PyStr EmptyString => Ok false
  | PyNone | PyBool _ | PyInt _ | PyFloat _ | PyDict _ => Raise AttributeError
  end.

(** [v.get(key, dflt)]; only dicts have the method. *)
Definition py_get (v : pyval) (key : string) (dflt : pyval) : outcome pyval :=
  match v with
  | PyDict d =>
      Return (match find (fun kv => String.eqb (fst kv) key) d with
              | Some kv => snd kv
              | None => dflt
              end)
  | PyNone | PyBool _ | PyInt _ | PyFloat _ | PyStr _ =>
      Throw (Builtin AttributeError)
  end.

(** [v[key]] for a string key. *)
Definition py_getitem (v : pyval) (key : string) : outcome pyval :=
  match v with
  | PyDict d =>
      match find (fun kv => String.eqb (fst kv) key) d with
      | Some kv => Return (snd kv)
      | None => Throw KeyError
      end
  | PyNone | PyBool _ | PyInt _ | PyFloat _ | PyStr _ =>
      Throw (Builtin TypeError)
  end.

(** [t[:n]] on a sequence: a negative [n] counts from the end, and both
    ends are clamped. *)
Definition slice_to {A : Type} (t : list A) (n : Z) : list A :=
  let len := Z.of_nat (length t) in
  let stop := if (n <? 0)%Z then Z.max 0 (len + n) else Z.min n len in
  firstn (Z.to_nat stop) t.

(** [t[a:b]] and [t[a:]] for literal indices [0 <= a <= b]. *)
Definition slice {A : Type} (t : list A) (a b : nat) : list A :=
  firstn (b - a) (skipn a t).

Definition slice_from {A : Type} (t : list A) (a : nat) : list A :=
  skipn a t.

End PyMore.

Import PyMore.

(* ===================================================================== *)
(** ** utils.py: the text helpers *)
(* ===================================================================== *)

Module Text.

(** A [str] as the sequence of its code points. *)
Abbreviation str := (list N).

Definition lparen : N := 40.
Definition rparen : N := 41.
Definition space : N := 32.
Definition hyphen : N := 45.
Definition plus : N := 43.
Definition one : N := 49.

Definition truncate_text {A : Type} (text : list A) (max_length : Z)
  (suffix : list A) : list A :=
  if (Z.of_nat (length text) <=? max_length)%Z then text
  else slice_to text (max_length - Z.of_nat (length suffix)) ++ suffix.

Section WithUnicode.

(** [str.isdigit] on one character, as the Unicode database answers. *)
Variable isdigit : N -> bool.

Definition format_phone_number (phone : str) : str :=
  match phone with
  | [] => []
  | _ :: _ =>
      let digits := List.filter isdigit phone in
      if Nat.eqb (length digits) 10 then
        [lparen] ++ slice digits 0 3 ++ [rparen; space] ++ slice digits 3 6
          ++ [hyphen] ++ slice_from digits 6
      else if Nat.eqb (length digits) 11
              && match digits with d :: _ => N.eqb d one | [] => false end then
        [plus; one; space; lparen] ++ slice digits 1 4 ++ [rparen; space]
          ++ slice digits 4 7 ++ [hyphen] ++ slice_from digits 7
      else phone
  end.

End WithUnicode.

End Text.

(* ===================================================================== *)
(** ** utils.py: safe_float, safe_int *)
(* ===================================================================== *)

Module Convert.

(** [int(x)] for a float: the value truncated toward zero. *)
Definition trunc_SF (x : spec_float) : result Z :=
  match x with
  | S754_zero _ => Ok 0%Z
  | S754_nan => Raise ValueError
  | S754_infinity _ => Raise OverflowError
  | S754_finite s m e =>
      let a := match e with
               | Z0 => Zpos m
               | Zpos p => (Zpos m * 2 ^ Zpos p)%Z
               | Zneg p => (Zpos m / 2 ^ Zpos p)%Z
               end in
      Ok (if s then (- a)%Z else a)
  end.

Section WithParsers.

(** The parsers behind [float(s)] and [int(s)] for a string [s]; [None]
    stands for the [ValueError] of a malformed string. *)
Variable float_of_string : string -> option float.
Variable int_of_string : string -> option Z.

(** [int(v)] *)
Definition py_int (v : pyval) : result Z :=
  match v with
  | PyInt z => Ok z
  | PyBool b => Ok (Z.b2z b)
  | PyFloat f => trunc_SF (Prim2SF f)
  | PyStr s =>
      match int_of_string s with
      | Some z => Ok z
      | None => Raise ValueError
      end
  | PyNone | PyDict _ => Raise TypeError
  end.

Definition safe_float (value default : pyval) : result pyval :=
  match Predict.py_float float_of_string value with
  | Ok f => Ok (PyFloat f)
  | Raise ValueError | Raise TypeError => Ok default
  | Raise e => Raise e
  end.

Definition safe_int (value default : pyval) : result pyval :=
  match py_int value with
  | Ok z => Ok (PyInt z)
  | Raise ValueError | Raise TypeError => Ok default
  | Raise e => Raise e
  end.

End WithParsers.

End Convert.

(* ===================================================================== *)
(** ** utils.py: validate_student_data *)
(* ===================================================================== *)

Module Validate.

Definition required_fields : list string := ["student_id"; "name"].

(** The [for field in required_fields] loop. *)
Definition check_required (student_data : obj) : list string :=
  fold_left
    (fun errors field =>
       if truthy (dict_get_default student_data field PyNone) then errors
       else errors ++ ["Missing required field: " +:+ field])
    required_fields [].

Definition validate_student_data (student_data : obj)
  : result (bool * list string) :=
  let errors := check_required student_data in
  let email := dict_get_default student_data "email" PyNone in
  errors ← (if truthy email then
              has_at ← py_contains_char "@"%char email;
              Ok (if has_at : bool then errors
                  else errors ++ ["Invalid email format"])
            else Ok errors);
  let student_id := dict_get_default student_data "student_id" (PyStr "") in
  errors ← (if truthy student_id then
              starts ← py_startswith_either "S"%char "s"%char student_id;
              Ok (if starts : bool then errors
                  else errors ++ ["Student ID should start with 'S'"])
            else Ok errors);
  Ok (Nat.eqb (length errors) 0, errors).

End Validate.

(* ===================================================================== *)
(** ** utils.py: calculate_semester_progress *)
(* ===================================================================== *)

Module Progress.

(** Dates are their proleptic Gregorian ordinals; [date.max] is
    9999-12-31. *)
Definition date_max : Z := 3652059.

(** [d + timedelta(days=n)] *)
Definition date_add_days (d n : Z) : outcome Z :=
  let r := (d + n)%Z in
  if (1 <=? r)%Z && (r <=? date_max)%Z then Return r
  else Throw (Builtin OverflowError).

(** [today] is what [date.today()] answers. *)
Definition calculate_semester_progress (today start_date : Z)
  (end_date : option Z) : outcome float :=
  end_date ← match end_date with
             | None => date_add_days start_date 120
             | Some e => Return e
             end;
  if (today <? start_date)%Z then Return 0%float
  else if (end_date <? today)%Z then Return 100%float
  else
    let total_days := (end_date - start_date)%Z in
    let elapsed_days := (today - start_date)%Z in
    if (total_days =? 0)%Z then Throw ZeroDivisionError
    else Return ((float_of_Z elapsed_days / float_of_Z total_days) * 100)%float.

End Progress.

(* ===================================================================== *)
(** ** utils.py: generate_student_report *)
(* ===================================================================== *)

Module Report.

Record recommendation : Type := {
  rec_type : string;
  priority : string;
  action : string;
  reason : string
}.

Record report : Type := {
  student_info : list (string * pyval);
  academic_metrics : pyval;
  risk_assessment : pyval;
  recommendations : list recommendation;
  generated_at : string
}.

Section WithFormatting.

(** [f"{x:.1f}"] for a number [x], and [datetime.now().isoformat()]. *)
Variable format_1f : pyval -> string.
Variable now_isoformat : string.

(** The two threshold tests share their shape: compare
    [metrics.get(key, 0)] with the bound and, below it, append an entry
    whose reason formats [metrics[key]]. *)
Definition threshold_recommendation (metrics : pyval) (key : string)
  (bound : Z) (entry : string -> recommendation)
  (recommendations : list recommendation) : outcome (list recommendation) :=
  v ← py_get metrics key (PyInt 0);
  low ← of_result (py_lt_int v bound);
  if low : bool then
    shown ← py_getitem metrics key;
    Return (recommendations ++ [entry (format_1f shown)])
  else Return recommendations.

Definition low_grade (shown : string) : recommendation :=
  {| rec_type := "academic"; priority := "high";
     action := "Schedule academic intervention";
     reason := "Low grade average (" +:+ shown +:+ "%)" |}.

Definition low_attendance (shown : string) : recommendation :=
  {| rec_type := "attendance"; priority := "high";
     action := "Address attendance issues";
     reason := "Low attendance rate (" +:+ shown +:+ "%)" |}.

Definition advisor : recommendation :=
  {| rec_type := "general"; priority := "high";
     action := "Immediate advisor consultation";
     reason := "High risk classification" |}.

Definition keep_going : recommendation :=
  {| rec_type := "general"; priority := "low";
     action := "Continue current support";
     reason := "Student performing adequately" |}.

Definition generate_student_report (student_data : obj) : outcome report :=
  let info :=
    [ ("name", dict_get_default student_data "name" (PyStr ""));
      ("student_id", dict_get_default student_data "student_id" (PyStr ""));
      ("email", dict_get_default student_data "email" (PyStr ""));
      ("enrollment_date",
        dict_get_default student_data "enrollment_date" (PyStr "")) ] in
  let metrics := dict_get_default student_data "metrics" (PyDict []) in
  let assessment := dict_get_default student_data "risk_assessment" (PyDict []) in
  risk_level ← py_get assessment "level" (PyStr "Unknown");
  recs ← threshold_recommendation metrics "grade_average" 60 low_grade [];
  recs ← threshold_recommendation metrics "attendance_rate" 75 low_attendance recs;
  let recs := if py_eq_str risk_level "High Risk" then recs ++ [advisor]
              else recs in
  let recs := if Nat.eqb (length recs) 0 then recs ++ [keep_going] else recs in
  Return {| student_info := info;
            academic_metrics := metrics;
            risk_assessment := assessment;
            recommendations := recs;
            generated_at := now_isoformat |}.

End WithFormatting.

End Report.

(* ===================================================================== *)
(** ** models.py: User.has_role *)
(* ===================================================================== *)

Module Models.

Definition role_hierarchy : list (string * list string) :=
  [ ("admin", ["admin"; "teacher"; "viewer"]);
    ("teacher", ["teacher"; "viewer"]);
    ("viewer", ["viewer"]) ].

(** [role] is the user's [self.role]. *)
Definition has_role (role : pyval) (role_name : string) : bool :=
  let allowed :=
    match find (fun kv => String.eqb (fst kv) role_name) role_hierarchy with
    | Some kv => snd kv
    | None => []
    end in
  existsb (fun r => py_eq_str role r) allowed.

End Models.

(* ===================================================================== *)
(** ** init_db.py: the risk label seeded with the sample data *)
(* ===================================================================== *)

Module InitDb.

(** The conditional expression under "Create risk prediction" in
    [create_student_academic_data]. *)
Definition risk_level (grade_percentage attendance_percentage : pyval)
  : result pyval :=
  high ← py_or (py_lt_int grade_percentage 50)
               (py_lt_int attendance_percentage 60);
  if high : bool then Ok (PyStr "High Risk")
  else
    medium ← py_or (py_lt_int grade_percentage 70)
                   (py_lt_int attendance_percentage 75);
    if medium : bool then Ok (PyStr "Medium Risk")
    else Ok (PyStr "Low Risk").

End InitDb.

(* ===================================================================== *)
(** ** app.py: the endpoint over the batch updater *)
(* ===================================================================== *)

Module App.

Inductive message : Set :=
| RiskLevelsUpdated
| ErrorUpdatingRisks (e : exn).

(** The body handed to [jsonify]. *)
Record response : Set := {
  success : bool;
  body : message
}.

Definition api_update_risks (load : Predictor.model_load) (st : Predictor.db)
  : response * Predictor.db :=
  match Predictor.update_all_student_risks load st with
  | (Ok _, st') => ({| success := true; body := RiskLevelsUpdated |}, st')
  | (Raise e, st') => ({| success := false; body := ErrorUpdatingRisks e |}, st')
  end.

End App.

(* ===================================================================== *)
(** ** Vocabulary of the properties *)
(* ===================================================================== *)

(** The three canonical risk labels. *)
Definition canonical_label (v : pyval) : Prop :=
  v = PyStr "Low Risk" \/ v = PyStr "Medium Risk" \/ v = PyStr "High Risk".

(** Python numbers: [bool], [int], [float]. *)
Definition is_number (v : pyval) : Prop :=
  match v with
  | PyBool _ | PyInt _ | PyFloat _ => True
  | PyNone | PyStr _ | PyDict _ => False
  end.

(** A grade or attendance value: a number that a binary64 float can hold,
    that is a [bool], a [float], or an [int] within the double range. *)
Definition numeric_value (v : pyval) : Prop :=
  match v with
  | PyBool _ | PyFloat _ => True
  | PyInt z => PrimFloat.is_infinity (float_of_Z z) = false
  | PyNone | PyStr _ | PyDict _ => False
  end.

(** A student object of the web application with the two attributes the
    predictor reads. *)
Definition student_with (grade_average attendance_rate : pyval) : obj :=
  <["grade_average" := grade_average]> (<["attendance_rate" := attendance_rate]> ∅).

(** A [student_data] dict as [predict.py] reads it. *)
Definition student_data_with (grade attendance : pyval) : obj :=
  <["grade" := grade]> (<["attendance" := attendance]> ∅).

(** An unpickled model whose [predict] answers every row with class [c]. *)
Definition constant_model (c : pyval) : Predictor.model :=
  fun rows => Ok (map (fun _ => c) rows).

(** A model that rejects its input, as scikit-learn does for a row that
    holds [None] or has the wrong number of features. *)
Definition rejecting_model : Predictor.model :=
  fun _ => Raise ValueError.

(** The model file is absent: [open] raises. *)
Definition no_model : Predictor.model_load := Raise FileNotFoundError.

(** The four strings [predict_student_risk] can return. *)
Definition risk_label (v : pyval) : Prop :=
  canonical_label v \/ v = PyStr "Unknown Risk".

(** A session whose pending state equals the committed one. *)
Definition clean_db (students : list obj) : Predictor.db :=
  {| Predictor.session_students := students;
     Predictor.committed_students := students |}.

(** Three students; the second has no grade average yet (a NULL column,
    which the dashboard code filters with [is not None]). *)
Definition roster_with_null_grade : list obj :=
  [ student_with (PyFloat 90) (PyFloat 95);
    student_with PyNone (PyFloat 80);
    student_with (PyFloat 40) (PyFloat 50) ].

Definition roster_all_numeric : list obj :=
  [ student_with (PyFloat 90) (PyFloat 95);
    student_with (PyFloat 40) (PyFloat 50) ].

(** The student as the loop leaves it after a successful prediction. *)
Definition assessed (load : Predictor.model_load) (s s' : obj) : Prop :=
  exists v, Predictor.predict_student_risk load s = Ok v
            /\ s' = <["risk_level" := v]> s.

Definition predicts (load : Predictor.model_load) (s : obj) : Prop :=
  exists v, Predictor.predict_student_risk load s = Ok v.

Definition throws (load : Predictor.model_load) (s : obj) : Prop :=
  exists e, Predictor.predict_student_risk load s = Raise e.

(** A process state that already holds an artifact of an earlier run. *)
Definition world_with_artifact : Train.world unit :=
  {| Train.files := <["data/trained_model.pkl" := Train.ModelPkl unit tt]> ∅;
     Train.stdout := [];
     Train.session_open := false |}.

(** What the data preparation yields for an empty roster. *)
Definition empty_training_data : Train.training_data :=
  {| Train.X := []; Train.y := []; Train.feature_names := [] |}.

(** How severe a label is: low 0, medium 1, high 2. *)
Definition severity (v : pyval) : option nat :=
  match v with
  | PyStr s =>
      if String.eqb s "Low Risk" then Some 0
      else if String.eqb s "Medium Risk" then Some 1
      else if String.eqb s "High Risk" then Some 2
      else None
  | _ => None
  end.

(** [float(v)] does not overflow: [v] is not an int beyond the double
    range. *)
Definition float_okb (v : pyval) : bool :=
  match v with
  | PyInt z => negb (PrimFloat.is_infinity (float_of_Z z))
  | _ => true
  end.

(** The key is absent from the dict or holds [None]. *)
Definition absent_or_none (d : obj) (key : string) : Prop :=
  d !! key = None \/ d !! key = Some PyNone.

(** The label the mapping of [predictor.py] gives a class index. *)
Definition class_label (z : Z) : string :=
  if (z =? 0)%Z then "Low Risk"
  else if (z =? 1)%Z then "Medium Risk"
  else "High Risk".

(** A model that answers class 0 whatever the row holds. *)
Definition optimistic_model : Predictor.model :=
  fun rows => Ok (map (fun _ => PyInt 0) rows).

(** A prepared dataset of two students with two features each. *)
Definition two_row_data : Train.training_data :=
  {| Train.X := [[80%float; 90%float]; [40%float; 50%float]];
     Train.y := [0%Z; 1%Z];
     Train.feature_names := ["grade_average"; "attendance_rate"] |}.

(** Stand-ins for the scikit-learn calls: the split keeps the first row
    for training and the rest for testing, the fit cannot fail, the
    classifier answers class 1 for every row. *)
Definition head_tail_split (rows : list (list float)) (labels : list Z)
  : result (list (list float) * list (list float) * list Z * list Z) :=
  Ok (firstn 1 rows, skipn 1 rows, firstn 1 labels, skipn 1 labels).

Definition trivial_fit (rows : list (list float)) (labels : list Z)
  : result unit := Ok tt.

Definition always_one (m : unit) (rows : list (list float)) : result (list Z) :=
  Ok (map (fun _ => 1%Z) rows).

Definition full_marks (expected predicted : list Z) : result float :=
  Ok 1%float.

Definition empty_report (expected predicted : list Z) : result string :=
  Ok "".

(** A split that refuses the data, as a stratified split does when a
    class has a single member. *)
Definition failing_split (rows : list (list float)) (labels : list Z)
  : result (list (list float) * list (list float) * list Z * list Z) :=
  Raise ValueError.

(** [str.isdigit] restricted to ASCII: the digits 0 to 9. *)
Definition ascii_isdigit (c : N) : bool := (48 <=? c)%N && (c <=? 57)%N.

(** The layout signs of [format_phone_number] are no digits. *)
Definition signs_are_no_digits (isdigit : N -> bool) : Prop :=
  isdigit Text.lparen = false /\ isdigit Text.rparen = false
  /\ isdigit Text.space = false /\ isdigit Text.hyphen = false
  /\ isdigit Text.plus = false.

(** "555-123-4567" and "hello world" and "..." as code points. *)
Definition sample_phone : Text.str :=
  [53; 53; 53; 45; 49; 50; 51; 45; 52; 53; 54; 55]%N.

Definition hello_world : Text.str :=
  [104; 101; 108; 108; 111; 32; 119; 111; 114; 108; 100]%N.

Definition dots : Text.str := [46; 46; 46]%N.

(** The three layouts of [format_phone_number], by the digits found. *)
Definition phone_layout (digits phone : Text.str) : Text.str :=
  if Nat.eqb (length digits) 10 then
    [Text.lparen] ++ slice digits 0 3 ++ [Text.rparen; Text.space]
      ++ slice digits 3 6 ++ [Text.hyphen] ++ slice_from digits 6
  else if Nat.eqb (length digits) 11
          && match digits with d :: _ => N.eqb d Text.one | [] => false end then
    [Text.plus; Text.one; Text.space; Text.lparen] ++ slice digits 1 4
      ++ [Text.rparen; Text.space] ++ slice digits 4 7 ++ [Text.hyphen]
      ++ slice_from digits 7
  else phone.

(** The field is absent, [None] or a string. *)
Definition str_or_missing (d : obj) (key : string) : Prop :=
  d !! key = None \/ d !! key = Some PyNone \/ exists s, d !! key = Some (PyStr s).

(** The text of a field, empty when it is absent or not a string. *)
Definition text_of (d : obj) (key : string) : string :=
  match d !! key with
  | Some (PyStr s) => s
  | _ => ""
  end.

Definition starts_with_S (s : string) : bool :=
  match s with
  | String c _ => Ascii.eqb c "S" || Ascii.eqb c "s"
  | EmptyString => false
  end.

(** What makes student data valid, read off the three fields. *)
Definition valid_fields (d : obj) : bool :=
  starts_with_S (text_of d "student_id")
  && negb (String.eqb (text_of d "name") "")
  && (String.eqb (text_of d "email") ""
      || contains_char "@" (text_of d "email")).

Definition is_dict (v : pyval) : Prop :=
  match v with
  | PyDict _ => True
  | _ => False
  end.

(** A dict without the key. *)
Definition lacks_key (v : pyval) (key : string) : Prop :=
  match v with
  | PyDict d => find (fun kv => String.eqb (fst kv) key) d = None
  | _ => False
  end.

(* ===================================================================== *)
(** ** Properties of the rule-based fallback *)
(* ===================================================================== *)

Arguments float_of_Z : simpl never.

Ltac run_py :=
  unfold mbind, result_bind, mret, result_ret, py_or, getattr,
    dict_get_default, try_except in *.

Lemma numeric_is_number (v : pyval) : numeric_value v -> is_number v.
Proof. destruct v; simpl; auto. Qed.

Lemma py_lt_int_number (v : pyval) (k : Z) :
  is_number v -> exists b, py_lt_int v k = Ok b.
Proof. destruct v; simpl; intros H; try contradiction; eauto. Qed.

(** On numbers the thresholds 50/60 and 70/75 of [calculate_risk_level]
    always select one of the three labels. *)
Lemma calculate_risk_level_number (student : obj) (g a : pyval) :
  student !! "grade_average" = Some g ->
  student !! "attendance_rate" = Some a ->
  is_number g -> is_number a ->
  exists label,
    Predictor.calculate_risk_level student = Ok label /\ canonical_label label.
Proof.
  intros Hg Ha Ng Na.
  destruct (py_lt_int_number g 50 Ng) as [g50 Eg50].
  destruct (py_lt_int_number a 60 Na) as [a60 Ea60].
  destruct (py_lt_int_number g 70 Ng) as [g70 Eg70].
  destruct (py_lt_int_number a 75 Na) as [a75 Ea75].
  unfold Predictor.calculate_risk_level, canonical_label. run_py.
  rewrite Hg, Ha, Eg50, Ea60, Eg70, Ea75.
  destruct g50, a60, g70, a75; eauto 6.
Qed.

(** [calculate_risk_level] reads nothing but the two attributes. *)
Lemma calculate_risk_level_reads_two (s1 s2 : obj) :
  s1 !! "grade_average" = s2 !! "grade_average" ->
  s1 !! "attendance_rate" = s2 !! "attendance_rate" ->
  Predictor.calculate_risk_level s1 = Predictor.calculate_risk_level s2.
Proof.
  intros Hg Ha. unfold Predictor.calculate_risk_level. run_py.
  rewrite Hg, Ha. reflexivity.
Qed.

(** With the thresholds 50/60 of [calculate_risk_level] the scenario
    55/65 is only a medium risk. *)
Lemma calculate_risk_level_55_65 :
  Predictor.calculate_risk_level (student_with (PyFloat 55) (PyFloat 65))
  = Ok (PyStr "Medium Risk").
Proof. vm_compute. reflexivity. Qed.

Section PredictRules.

Variable float_of_string : string -> option float.

Lemma to_numeric_numeric (v : pyval) :
  numeric_value v ->
  exists f, Predict.to_numeric float_of_string v = Ok (PyFloat f).
Proof.
  destruct v as [ | b | z | f | s | d ]; simpl; intros H; try contradiction.
  - destruct b; eauto.
  - unfold Predict.to_numeric, Predict.py_float. rewrite H. eauto.
  - eauto.
Qed.

(** With float operands the thresholds 60/70 and 75/80 of [predict.py]
    always select one of the three labels, and nothing is printed. *)
Lemma predict_rules_numeric (d : obj) (g a : pyval) :
  d !! "grade" = Some g ->
  d !! "attendance" = Some a ->
  numeric_value g -> numeric_value a ->
  exists label,
    Predict.predict_student_risk float_of_string d = (label, [])
    /\ canonical_label label.
Proof.
  intros Hg Ha Ng Na.
  destruct (to_numeric_numeric g Ng) as [fg Eg].
  destruct (to_numeric_numeric a Na) as [fa Ea].
  unfold Predict.predict_student_risk, Predict.risk_rules, canonical_label.
  run_py. rewrite Hg, Ha, Eg, Ea. simpl.
  destruct (PrimFloat.ltb fg (float_of_Z 60)),
    (PrimFloat.ltb fa (float_of_Z 70)),
    (PrimFloat.ltb fg (float_of_Z 75)),
    (PrimFloat.ltb fa (float_of_Z 80)); eauto 6.
Qed.

Lemma predict_rules_reads_two (d1 d2 : obj) :
  d1 !! "grade" = d2 !! "grade" ->
  d1 !! "attendance" = d2 !! "attendance" ->
  Predict.predict_student_risk float_of_string d1
  = Predict.predict_student_risk float_of_string d2.
Proof.
  intros Hg Ha. unfold Predict.predict_student_risk, Predict.risk_rules.
  run_py. rewrite Hg, Ha. reflexivity.
Qed.

(** An int grade beyond the double range makes [float] raise
    [OverflowError], which only the outer handler catches. *)
Lemma predict_rules_overflow :
  Predict.predict_student_risk float_of_string
    (student_data_with (PyInt (2 ^ 1024)) (PyFloat 88))
  = (PyStr "Unknown Risk", [Predict.ErrorInRiskPrediction OverflowError]).
Proof. vm_compute. reflexivity. Qed.

End PredictRules.

(** C1. Under the default thresholds 60/70 (high) and 75/80 (medium), which
    are the ones [predict.py] applies, a grade of 55 with an attendance of
    65 is classified "High Risk", whether the two numbers arrive as ints or
    as floats. *)
Theorem C1_default_thresholds_55_65_high_risk :
  forall float_of_string : string -> option float,
    Predict.predict_student_risk float_of_string
      (student_data_with (PyInt 55) (PyInt 65)) = (PyStr "High Risk", [])
    /\ Predict.predict_student_risk float_of_string
         (student_data_with (PyFloat 55) (PyFloat 65)) = (PyStr "High Risk", []).
Proof. intros p. split; vm_compute; reflexivity. Qed.

(** C2. The rule-based fallback never raises on a grade value and an
    attendance value: [calculate_risk_level] and the rules of [predict.py]
    both return normally with one of the three canonical labels, and the
    label depends on nothing but the (grade, attendance) pair, so equal
    pairs give equal labels. *)
Theorem C2_rule_based_fallback_total_canonical_pure :
  forall g a : pyval,
    numeric_value g -> numeric_value a ->
    (forall student : obj,
        student !! "grade_average" = Some g ->
        student !! "attendance_rate" = Some a ->
        exists label,
          Predictor.calculate_risk_level student = Ok label
          /\ canonical_label label
          /\ forall student' : obj,
              student' !! "grade_average" = Some g ->
              student' !! "attendance_rate" = Some a ->
              Predictor.calculate_risk_level student' = Ok label)
    /\ (forall (float_of_string : string -> option float) (d : obj),
           d !! "grade" = Some g ->
           d !! "attendance" = Some a ->
           exists label,
             Predict.predict_student_risk float_of_string d = (label, [])
             /\ canonical_label label
             /\ forall d' : obj,
                 d' !! "grade" = Some g ->
                 d' !! "attendance" = Some a ->
                 Predict.predict_student_risk float_of_string d' = (label, [])).
Proof.
  intros g a Ng Na. split.
  - intros student Hg Ha.
    destruct (calculate_risk_level_number student g a Hg Ha
                (numeric_is_number g Ng) (numeric_is_number a Na))
      as [label [E C]].
    exists label. split; [exact E | split; [exact C | ]].
    intros s' Hg' Ha'. rewrite <- E.
    apply calculate_risk_level_reads_two; congruence.
  - intros p d Hg Ha.
    destruct (predict_rules_numeric p d g a Hg Ha Ng Na) as [label [E C]].
    exists label. split; [exact E | split; [exact C | ]].
    intros d' Hg' Ha'. rewrite <- E.
    apply predict_rules_reads_two; congruence.
Qed.

Lemma C2_witness :
  (exists label,
      Predictor.calculate_risk_level (student_with (PyFloat 55) (PyInt 65))
      = Ok label
      /\ canonical_label label)
  /\ (exists label,
         Predict.predict_student_risk (fun _ => None)
           (student_data_with (PyFloat 55) (PyInt 65)) = (label, [])
         /\ canonical_label label).
Proof.
  destruct (C2_rule_based_fallback_total_canonical_pure (PyFloat 55) (PyInt 65))
    as [H1 H2]; [ exact I | vm_compute; reflexivity | ].
  split.
  - destruct (H1 (student_with (PyFloat 55) (PyInt 65))) as [label [E [C _]]];
      [ vm_compute; reflexivity | vm_compute; reflexivity | ].
    exists label. split; assumption.
  - destruct (H2 (fun _ => None) (student_data_with (PyFloat 55) (PyInt 65)))
      as [label [E [C _]]];
      [ vm_compute; reflexivity | vm_compute; reflexivity | ].
    exists label. split; assumption.
Defined.

(* ===================================================================== *)
(** ** Properties of the classifier path of predictor.py *)
(* ===================================================================== *)

Lemma risk_levels_get_labels (p : pyval) (l : string) :
  int_dict_get Predictor.risk_levels p "Unknown Risk" = Ok l ->
  risk_label (PyStr l).
Proof.
  unfold int_dict_get, Predictor.risk_levels, risk_label, canonical_label.
  destruct (hashable p); [ | discriminate ]. simpl.
  destruct (py_eq_int p 0); [ intros [= <-]; auto | ].
  destruct (py_eq_int p 1); [ intros [= <-]; auto | ].
  destruct (py_eq_int p 2); intros [= <-]; auto.
Qed.

(** Whatever the model answers, the [try] block returns one of four
    strings when it returns. *)
Lemma predict_with_model_labels (load : Predictor.model_load) (student : obj)
  (v : pyval) :
  Predictor.predict_with_model load student = Ok v -> risk_label v.
Proof.
  unfold Predictor.predict_with_model. run_py.
  destruct load as [m | e]; [ | discriminate ].
  destruct (Predictor.features student) as [fs | e]; [ | discriminate ].
  destruct (m [fs]) as [out | e]; [ | discriminate ].
  destruct (first_item out) as [p | e]; [ | discriminate ].
  destruct (int_dict_get Predictor.risk_levels p "Unknown Risk") as [l | e] eqn:E;
    [ | discriminate ].
  intros [= <-]. exact (risk_levels_get_labels p l E).
Qed.

(** With numeric attributes [predict_student_risk] always returns a label:
    the fallback cannot raise. *)
Lemma predict_student_risk_number (load : Predictor.model_load) (student : obj)
  (g a : pyval) :
  student !! "grade_average" = Some g ->
  student !! "attendance_rate" = Some a ->
  is_number g -> is_number a ->
  exists label,
    Predictor.predict_student_risk load student = Ok label /\ risk_label label.
Proof.
  intros Hg Ha Ng Na. unfold Predictor.predict_student_risk, try_except.
  destruct (Predictor.predict_with_model load student) as [v | e] eqn:E.
  - exists v. split; [ reflexivity | exact (predict_with_model_labels _ _ _ E) ].
  - destruct (calculate_risk_level_number student g a Hg Ha Ng Na) as [l [El Cl]].
    exists l. split; [ exact El | left; exact Cl ].
Qed.

(** What [predict_student_risk] returns is a bare string. *)
Lemma predict_student_risk_returns_str (load : Predictor.model_load)
  (student : obj) (v : pyval) :
  Predictor.predict_student_risk load student = Ok v -> exists s, v = PyStr s.
Proof.
  unfold Predictor.predict_student_risk, try_except.
  destruct (Predictor.predict_with_model load student) as [v' | e] eqn:E.
  - intros [= <-]. destruct (predict_with_model_labels _ _ _ E) as [[H|[H|H]]|H];
      subst; eauto.
  - unfold Predictor.calculate_risk_level. run_py.
    repeat match goal with
      | |- context [match ?x with _ => _ end] => destruct x
      end; intros [= <-]; eauto.
Qed.

(** C3. [predict_student_risk] does not always return a label.  Its
    handler calls the rule-based fallback outside the [try], so a student
    whose grade average is [None], is a string, or is missing makes the
    fallback raise, and the exception reaches the caller; whether the
    model file is absent or the loaded model rejects the row makes no
    difference. *)
Theorem C3_predict_student_risk_raises_on_null_grade :
  Predictor.predict_student_risk no_model (student_with PyNone (PyFloat 80))
  = Raise TypeError
  /\ Predictor.predict_student_risk (Ok rejecting_model)
       (student_with PyNone (PyFloat 80)) = Raise TypeError
  /\ Predictor.predict_student_risk no_model
       (student_with (PyStr "n/a") (PyFloat 80)) = Raise TypeError
  /\ Predictor.predict_student_risk no_model
       (<["attendance_rate" := PyFloat 80]> ∅) = Raise AttributeError.
Proof. repeat split; vm_compute; reflexivity. Qed.

(** C4, as stated, fails: a model that answers class 3 makes the
    model-based path return "Unknown Risk", a fourth label. *)
Lemma C4_counterexample :
  Predictor.predict_with_model (Ok (constant_model (PyInt 3)))
    (student_with (PyFloat 55) (PyFloat 65)) = Ok (PyStr "Unknown Risk")
  /\ ~ canonical_label (PyStr "Unknown Risk").
Proof.
  split; [ vm_compute; reflexivity | ].
  unfold canonical_label. intros [H | [H | H]]; discriminate H.
Qed.

(** C4 (amended). The model-based path is decided by the model's answer
    [p] for the row.  An int 0, 1 or 2 gives "Low Risk", "Medium Risk",
    "High Risk"; every other int gives the default "Unknown Risk".  In
    general a hashable answer gives the label of the class index it is
    equal to, and "Unknown Risk" when it equals none; an unhashable
    answer raises [TypeError] inside the [try].  So whenever the path
    returns, it returns one of the three canonical strings or
    "Unknown Risk". *)
Theorem C4_label_mapping_with_unknown_default :
  (forall (m : Predictor.model) (student : obj) (g a : pyval) (z : Z)
          (rest : list pyval),
      student !! "grade_average" = Some g ->
      student !! "attendance_rate" = Some a ->
      m [[g; a]] = Ok (PyInt z :: rest) ->
      Predictor.predict_with_model (Ok m) student
      = Ok (PyStr (if (z =? 0)%Z then "Low Risk"
                   else if (z =? 1)%Z then "Medium Risk"
                   else if (z =? 2)%Z then "High Risk"
                   else "Unknown Risk")))
  /\ (forall (m : Predictor.model) (student : obj) (g a p : pyval)
             (rest : list pyval),
         student !! "grade_average" = Some g ->
         student !! "attendance_rate" = Some a ->
         m [[g; a]] = Ok (p :: rest) ->
         Predictor.predict_with_model (Ok m) student
         = if hashable p
           then Ok (PyStr (if py_eq_int p 0 then "Low Risk"
                           else if py_eq_int p 1 then "Medium Risk"
                           else if py_eq_int p 2 then "High Risk"
                           else "Unknown Risk"))
           else Raise TypeError)
  /\ (forall (load : Predictor.model_load) (student : obj) (v : pyval),
         Predictor.predict_with_model load student = Ok v ->
         canonical_label v \/ v = PyStr "Unknown Risk").
Proof.
  assert (forall (m : Predictor.model) (student : obj) (g a p : pyval)
                 (rest : list pyval),
             student !! "grade_average" = Some g ->
             student !! "attendance_rate" = Some a ->
             m [[g; a]] = Ok (p :: rest) ->
             Predictor.predict_with_model (Ok m) student
             = if hashable p
               then Ok (PyStr (if py_eq_int p 0 then "Low Risk"
                               else if py_eq_int p 1 then "Medium Risk"
                               else if py_eq_int p 2 then "High Risk"
                               else "Unknown Risk"))
               else Raise TypeError) as General.
  { intros m student g a p rest Hg Ha Hm.
    unfold Predictor.predict_with_model, Predictor.features. run_py.
    rewrite Hg, Ha, Hm. cbn [first_item].
    unfold int_dict_get, Predictor.risk_levels.
    destruct (hashable p); [ | reflexivity ]. cbn [find fst snd].
    destruct (py_eq_int p 0); [ reflexivity | ].
    destruct (py_eq_int p 1); [ reflexivity | ].
    destruct (py_eq_int p 2); reflexivity. }
  split; [ | split; [ exact General | exact predict_with_model_labels ] ].
  intros m student g a z rest Hg Ha Hm.
  exact (General m student g a (PyInt z) rest Hg Ha Hm).
Qed.

Lemma C4_witness :
  Predictor.predict_with_model (Ok (constant_model (PyInt 7)))
    (student_with (PyFloat 55) (PyFloat 65)) = Ok (PyStr "Unknown Risk")
  /\ Predictor.predict_with_model (Ok (constant_model (PyFloat 1)))
       (student_with (PyFloat 55) (PyFloat 65)) = Ok (PyStr "Medium Risk")
  /\ Predictor.predict_with_model (Ok (constant_model (PyDict [])))
       (student_with (PyFloat 55) (PyFloat 65)) = Raise TypeError
  /\ (canonical_label (PyStr "High Risk")
      \/ PyStr "High Risk" = PyStr "Unknown Risk").
Proof.
  destruct C4_label_mapping_with_unknown_default as [Hz [Hp Hv]].
  split; [ | split; [ | split ] ].
  - apply (Hz (constant_model (PyInt 7)) (student_with (PyFloat 55) (PyFloat 65))
              (PyFloat 55) (PyFloat 65) 7%Z []);
      vm_compute; reflexivity.
  - apply (Hp (constant_model (PyFloat 1))
              (student_with (PyFloat 55) (PyFloat 65))
              (PyFloat 55) (PyFloat 65) (PyFloat 1) []);
      vm_compute; reflexivity.
  - apply (Hp (constant_model (PyDict []))
              (student_with (PyFloat 55) (PyFloat 65))
              (PyFloat 55) (PyFloat 65) (PyDict []) []);
      vm_compute; reflexivity.
  - apply (Hv (Ok (constant_model (PyInt 2)))
              (student_with (PyFloat 55) (PyFloat 65))).
    vm_compute. reflexivity.
Defined.

(** When the rule-based fallback returns, it returns a canonical label. *)
Lemma calculate_risk_level_labels (student : obj) (v : pyval) :
  Predictor.calculate_risk_level student = Ok v -> canonical_label v.
Proof.
  unfold Predictor.calculate_risk_level, canonical_label. run_py.
  repeat match goal with
    | |- context [match ?x with _ => _ end] => destruct x
    end; intros [= <-]; auto.
Qed.

(** C5, as stated, fails: without a model file the student 55/65 gets the
    bare string "Medium Risk", which carries neither a probability nor a
    feature dict, and the same holds on the model path. *)
Lemma C5_counterexample :
  Predictor.predict_student_risk no_model
    (student_with (PyFloat 55) (PyFloat 65)) = Ok (PyStr "Medium Risk")
  /\ has_key (PyStr "Medium Risk") "probability" = false
  /\ has_key (PyStr "Medium Risk") "features" = false
  /\ Predictor.predict_student_risk (Ok (constant_model (PyInt 2)))
       (student_with (PyFloat 55) (PyFloat 65)) = Ok (PyStr "High Risk")
  /\ has_key (PyStr "High Risk") "probability" = false
  /\ has_key (PyStr "High Risk") "features" = false.
Proof. repeat split; vm_compute; reflexivity. Qed.

(** C5 (amended). [predict_student_risk] returns the risk label alone.
    Whatever the model file and the student, a returned value is a string,
    one of "Low Risk", "Medium Risk", "High Risk" and "Unknown Risk", and
    has no [risk_level], [probability] or [features] entry; on the
    fallback for the scenario 55/65 the whole result is the string
    "Medium Risk", and with a model answering class 2 it is "High Risk". *)
Theorem C5_predict_student_risk_returns_bare_label :
  (forall (load : Predictor.model_load) (student : obj),
      match Predictor.predict_student_risk load student with
      | Ok v =>
          (exists s, v = PyStr s)
          /\ risk_label v
          /\ has_key v "risk_level" = false
          /\ has_key v "probability" = false
          /\ has_key v "features" = false
      | Raise _ => True
      end)
  /\ Predictor.predict_student_risk no_model
       (student_with (PyFloat 55) (PyFloat 65)) = Ok (PyStr "Medium Risk")
  /\ Predictor.predict_student_risk (Ok (constant_model (PyInt 2)))
       (student_with (PyFloat 55) (PyFloat 65)) = Ok (PyStr "High Risk").
Proof.
  split; [ | split; vm_compute; reflexivity ].
  intros load student.
  destruct (Predictor.predict_student_risk load student) as [v | e] eqn:E;
    [ | exact I ].
  assert (risk_label v) as L.
  { revert E. unfold Predictor.predict_student_risk, try_except.
    destruct (Predictor.predict_with_model load student) as [v' | e'] eqn:E'.
    - intros [= <-]. exact (predict_with_model_labels _ _ _ E').
    - intros E. left. exact (calculate_risk_level_labels _ _ E). }
  destruct (predict_student_risk_returns_str load student v E) as [s ->].
  split; [ exists s; reflexivity | ]. split; [ exact L | ]. repeat split.
Qed.

(** C6. The vector [predict_student_risk] hands to the model has two
    entries, [grade_average] and [attendance_rate] in this order, not the
    six the training data has. *)
Theorem C6_prediction_features_are_two :
  (forall student : obj,
      match Predictor.features student with
      | Ok fs =>
          length fs = 2
          /\ fs !! 0 = student !! "grade_average"
          /\ fs !! 1 = student !! "attendance_rate"
      | Raise _ => True
      end)
  /\ Predictor.features (student_with (PyFloat 55) (PyFloat 65))
     = Ok [PyFloat 55; PyFloat 65].
Proof.
  split; [ | vm_compute; reflexivity ].
  intros student. unfold Predictor.features. run_py.
  destruct (student !! "grade_average") as [g | ]; [ | exact I ].
  destruct (student !! "attendance_rate") as [a | ]; [ | exact I ].
  repeat split.
Qed.

(* ===================================================================== *)
(** ** The batch updater *)
(* ===================================================================== *)

Lemma update_loop_all_predict (load : Predictor.model_load) (students : list obj) :
  Forall (predicts load) students ->
  exists students',
    Predictor.update_loop load students = (students', None)
    /\ Forall2 (assessed load) students students'.
Proof.
  induction students as [ | s rest IH ]; intros H.
  - exists []. split; [ reflexivity | constructor ].
  - inversion H as [ | ? ? [v Hv] Hrest ]; subst.
    destruct (IH Hrest) as [rest' [E F]].
    exists (<["risk_level" := v]> s :: rest'). simpl. rewrite Hv, E.
    split; [ reflexivity | ].
    constructor; [ exists v; split; [ exact Hv | reflexivity ] | exact F ].
Qed.

Lemma update_loop_some_throw (load : Predictor.model_load) (students : list obj) :
  Exists (throws load) students ->
  exists students' e, Predictor.update_loop load students = (students', Some e).
Proof.
  induction students as [ | s rest IH ]; intros H.
  - inversion H.
  - simpl. destruct (Predictor.predict_student_risk load s) as [v | e] eqn:E.
    + inversion H as [ ? ? [e' He'] | ? ? Hrest ]; subst.
      * rewrite E in He'. discriminate He'.
      * destruct (IH Hrest) as [rest' [e' E']]. rewrite E'. eauto.
    + eauto.
Qed.

(** C7, as stated, fails: with one student whose grade average is [None]
    in a roster of three, the exception leaves [update_all_student_risks],
    the committed roster is the one from before the call, so no student has
    a persisted risk level, and the student after the failing one is not
    even assessed in the session. *)
Lemma C7_counterexample :
  fst (Predictor.update_all_student_risks no_model (clean_db roster_with_null_grade))
  = Raise TypeError
  /\ Predictor.committed_students
       (snd (Predictor.update_all_student_risks no_model
               (clean_db roster_with_null_grade)))
     = roster_with_null_grade
  /\ Forall (fun s : obj => s !! "risk_level" = None) roster_with_null_grade
  /\ Predictor.session_students
       (snd (Predictor.update_all_student_risks no_model
               (clean_db roster_with_null_grade))) !! 2
     = Some (student_with (PyFloat 40) (PyFloat 50)).
Proof.
  split; [ vm_compute; reflexivity | ].
  split; [ vm_compute; reflexivity | ].
  split; [ | vm_compute; reflexivity ].
  repeat constructor.
Qed.

(** C7 (amended). The batch is all or nothing.  When prediction returns
    for every student, each student gets its predicted risk level and one
    commit at the end persists them all.  When prediction raises for some
    student, the exception leaves the updater and the commit is not
    reached: the committed roster stays as it was.  The updater returns no
    counts in either case. *)
Theorem C7_batch_update_all_or_nothing :
  forall (load : Predictor.model_load) (st : Predictor.db),
    (Forall (predicts load) (Predictor.session_students st) ->
     exists students',
       Predictor.update_all_student_risks load st
       = (Ok tt, clean_db students')
       /\ Forall2 (assessed load) (Predictor.session_students st) students')
    /\ (Exists (throws load) (Predictor.session_students st) ->
        exists e,
          fst (Predictor.update_all_student_risks load st) = Raise e
          /\ Predictor.committed_students
               (snd (Predictor.update_all_student_risks load st))
             = Predictor.committed_students st).
Proof.
  intros load st. unfold Predictor.update_all_student_risks. split; intros H.
  - destruct (update_loop_all_predict load _ H) as [students' [E F]].
    exists students'. rewrite E. split; [ reflexivity | exact F ].
  - destruct (update_loop_some_throw load _ H) as [students' [e E]].
    exists e. rewrite E. split; reflexivity.
Qed.

Lemma C7_witness :
  (exists students',
      Predictor.update_all_student_risks no_model (clean_db roster_all_numeric)
      = (Ok tt, clean_db students')
      /\ Forall2 (assessed no_model) roster_all_numeric students')
  /\ (exists e,
         fst (Predictor.update_all_student_risks no_model
                (clean_db roster_with_null_grade)) = Raise e
         /\ Predictor.committed_students
              (snd (Predictor.update_all_student_risks no_model
                      (clean_db roster_with_null_grade)))
            = roster_with_null_grade).
Proof.
  split.
  - apply (C7_batch_update_all_or_nothing no_model (clean_db roster_all_numeric)).
    simpl. repeat constructor; eexists; vm_compute; reflexivity.
  - apply (C7_batch_update_all_or_nothing no_model (clean_db roster_with_null_grade)).
    simpl. apply Exists_cons_tl, Exists_cons_hd.
    exists TypeError. vm_compute. reflexivity.
Defined.

(* ===================================================================== *)
(** ** Training on an empty dataset *)
(* ===================================================================== *)

(** C8. When the prepared dataset has no rows, [train_model] returns
    normally after printing "No training data available."; it calls none
    of the fitting or dumping steps, so the files under the project root,
    among them any earlier artifact, are exactly the ones from before the
    call, and the session is closed. *)
Theorem C8_empty_dataset_writes_nothing :
  forall (classifier : Type)
         (train_test_split :
           list (list float) -> list Z ->
           result (list (list float) * list (list float) * list Z * list Z))
         (fit : list (list float) -> list Z -> result classifier)
         (predict : classifier -> list (list float) -> result (list Z))
         (accuracy_score : list Z -> list Z -> result float)
         (classification_report : list Z -> list Z -> result string)
         (data : Train.training_data)
         (w : Train.world classifier),
    Train.shape0 (Train.X data) = 0 ->
    Train.train_model classifier (Ok data) train_test_split fit predict
      accuracy_score classification_report w
    = (Ok tt,
       {| Train.files := Train.files classifier w;
          Train.stdout :=
            Train.stdout classifier w
            ++ [ Train.Text "🔬 Starting model training...";
                 Train.Text "📊 Preparing training data...";
                 Train.Text "❌ No training data available." ];
          Train.session_open := false |}).
Proof.
  intros classifier tts fit predict acc rep data w H.
  unfold Train.train_model, Train.try_reraise_finally, Train.train_body,
    Train.bind, Train.print, Train.get_session, Train.session_close, Train.lift.
  simpl. rewrite H. simpl.
  rewrite <- !app_assoc. reflexivity.
Qed.

Lemma C8_witness :
  Train.shape0 (Train.X empty_training_data) = 0
  /\ Train.train_model unit (Ok empty_training_data)
       (fun _ _ => Raise ValueError) (fun _ _ => Ok tt) (fun _ _ => Ok [])
       (fun _ _ => Ok 1%float) (fun _ _ => Ok "") world_with_artifact
     = (Ok tt,
        {| Train.files := <["data/trained_model.pkl" := Train.ModelPkl unit tt]> ∅;
           Train.stdout :=
             [ Train.Text "🔬 Starting model training...";
               Train.Text "📊 Preparing training data...";
               Train.Text "❌ No training data available." ];
           Train.session_open := false |}).
Proof.
  split; [ reflexivity | ].
  apply (C8_empty_dataset_writes_nothing unit
           (fun _ _ => Raise ValueError) (fun _ _ => Ok tt) (fun _ _ => Ok [])
           (fun _ _ => Ok 1%float) (fun _ _ => Ok "")
           empty_training_data world_with_artifact).
  reflexivity.
Defined.

(* ===================================================================== *)
(** ** Academic metrics *)
(* ===================================================================== *)

Section Metrics.

Variables np_mean np_std np_min np_max : list float -> float.

(** With at least one grade the attendance rate is the one of the
    specification: the share of present records times 100, or 0 without
    records. *)
Lemma attendance_rate_with_grades (g : float) (gs : list float)
  (attendance : list bool) :
  Utils.item
    (Utils.calculate_academic_metrics np_mean np_std np_min np_max
       (g :: gs) attendance) "attendance_rate"
  = Some (Utils.attendance_rate_spec attendance).
Proof. destruct attendance; reflexivity. Qed.

(** Without grades the early return reports 0 whatever the attendance. *)
Lemma attendance_rate_without_grades (attendance : list bool) :
  Utils.item
    (Utils.calculate_academic_metrics np_mean np_std np_min np_max
       [] attendance) "attendance_rate"
  = Some (PyInt 0).
Proof. reflexivity. Qed.

End Metrics.

(** C9. With an empty grade list [calculate_academic_metrics] returns an
    attendance rate of 0 even when attendance records exist: for two
    present records it reports 0 where present_count / total_count × 100
    is 100. *)
Theorem C9_empty_grades_zero_attendance_rate :
  forall np_mean np_std np_min np_max : list float -> float,
    Utils.item
      (Utils.calculate_academic_metrics np_mean np_std np_min np_max
         [] [true; true]) "attendance_rate" = Some (PyInt 0)
    /\ Utils.attendance_rate_spec [true; true] = PyFloat 100
    /\ Utils.item
         (Utils.calculate_academic_metrics np_mean np_std np_min np_max
            [70%float] [true; true]) "attendance_rate" = Some (PyFloat 100).
Proof. intros. repeat split; vm_compute; reflexivity. Qed.

(** C10. The result of [calculate_academic_metrics] has two shapes.  For
    an empty grade list it has exactly the five keys [grade_average],
    [grade_std], [attendance_rate], [total_assignments], [completion_rate],
    each with the int 0.  For a non-empty grade list it has seven keys,
    with [grade_min] and [grade_max] after [grade_std], and
    [completion_rate] is the float 100.0. *)
Theorem C10_metrics_key_sets :
  forall np_mean np_std np_min np_max : list float -> float,
    (forall attendance : list bool,
        Utils.keys
          (Utils.calculate_academic_metrics np_mean np_std np_min np_max
             [] attendance)
        = [ "grade_average"; "grade_std"; "attendance_rate";
            "total_assignments"; "completion_rate" ]
        /\ Forall (fun kv : string * pyval => snd kv = PyInt 0)
             (Utils.calculate_academic_metrics np_mean np_std np_min np_max
                [] attendance))
    /\ (forall (g : float) (gs : list float) (attendance : list bool),
           Utils.keys
             (Utils.calculate_academic_metrics np_mean np_std np_min np_max
                (g :: gs) attendance)
           = [ "grade_average"; "grade_std"; "grade_min"; "grade_max";
               "attendance_rate"; "total_assignments"; "completion_rate" ]
           /\ Utils.item
                (Utils.calculate_academic_metrics np_mean np_std np_min np_max
                   (g :: gs) attendance) "grade_min"
              = Some (PyFloat (np_min (g :: gs)))
           /\ Utils.item
                (Utils.calculate_academic_metrics np_mean np_std np_min np_max
                   (g :: gs) attendance) "grade_max"
              = Some (PyFloat (np_max (g :: gs)))
           /\ Utils.item
                (Utils.calculate_academic_metrics np_mean np_std np_min np_max
                   (g :: gs) attendance) "completion_rate"
              = Some (PyFloat 100)).
Proof.
  intros. split.
  - intros attendance. split; [ reflexivity | ]. repeat constructor.
  - intros g gs attendance. repeat split; reflexivity.
Qed.

(* ===================================================================== *)
(** ** Order facts on binary64 values *)
(* ===================================================================== *)

Ltac sf_cases :=
  repeat match goal with
    | |- context [Z.compare ?a ?b] =>
        destruct (Z.compare_spec a b); simpl; try congruence
    | |- context [PosDef.Pos.compare_cont Eq ?a ?b] =>
        change (PosDef.Pos.compare_cont Eq a b) with (Pos.compare a b);
        destruct (Pos.compare_spec a b); simpl; try congruence
    end.

Lemma SF_le_lt_trans (x y z : spec_float) :
  SFleb x y = true -> SFltb y z = true -> SFltb x z = true.
Proof.
  unfold SFleb, SFltb.
  destruct x as [sx|sx| |sx mx ex], y as [sy|sy| |sy my ey],
    z as [sz|sz| |sz mz ez];
    simpl; try congruence;
    try destruct sx; try destruct sy; try destruct sz; simpl; try congruence;
    sf_cases; intros; subst; try lia.
Qed.

Lemma SF_lt_le_trans (x y z : spec_float) :
  SFltb x y = true -> SFleb y z = true -> SFltb x z = true.
Proof.
  unfold SFleb, SFltb.
  destruct x as [sx|sx| |sx mx ex], y as [sy|sy| |sy my ey],
    z as [sz|sz| |sz mz ez];
    simpl; try congruence;
    try destruct sx; try destruct sy; try destruct sz; simpl; try congruence;
    sf_cases; intros; subst; try lia.
Qed.

Lemma float_le_lt_trans (x y z : float) :
  PrimFloat.leb x y = true -> PrimFloat.ltb y z = true ->
  PrimFloat.ltb x z = true.
Proof. rewrite leb_spec, !ltb_spec. apply SF_le_lt_trans. Qed.

Lemma float_lt_le_trans (x y z : float) :
  PrimFloat.ltb x y = true -> PrimFloat.leb y z = true ->
  PrimFloat.ltb x z = true.
Proof. rewrite leb_spec, !ltb_spec. apply SF_lt_le_trans. Qed.

(** A value below a smaller bound is below a larger one. *)
Lemma below_weaken (f : float) (k1 k2 : Z) :
  PrimFloat.leb (float_of_Z k1) (float_of_Z k2) = true ->
  PrimFloat.ltb f (float_of_Z k1) = true ->
  PrimFloat.ltb f (float_of_Z k2) = true.
Proof. intros Hk Hf. exact (float_lt_le_trans _ _ _ Hf Hk). Qed.

(** A smaller value stays below every bound the larger one is below. *)
Lemma below_smaller (f f' : float) (k : Z) :
  PrimFloat.leb f f' = true ->
  PrimFloat.ltb f' (float_of_Z k) = false \/
  PrimFloat.ltb f (float_of_Z k) = true.
Proof.
  intros H. destruct (PrimFloat.ltb f' (float_of_Z k)) eqn:E; [ | auto ].
  right. exact (float_le_lt_trans _ _ _ H E).
Qed.

(* ===================================================================== *)
(** ** More on the two rule sets *)
(* ===================================================================== *)

Lemma student_with_grade (g a : pyval) :
  student_with g a !! "grade_average" = Some g.
Proof. unfold student_with. apply lookup_insert_eq. Qed.

Lemma student_with_attendance (g a : pyval) :
  student_with g a !! "attendance_rate" = Some a.
Proof.
  unfold student_with. rewrite lookup_insert_ne by discriminate.
  apply lookup_insert_eq.
Qed.

Lemma student_data_with_grade (g a : pyval) :
  student_data_with g a !! "grade" = Some g.
Proof. unfold student_data_with. apply lookup_insert_eq. Qed.

Lemma student_data_with_attendance (g a : pyval) :
  student_data_with g a !! "attendance" = Some a.
Proof.
  unfold student_data_with. rewrite lookup_insert_ne by discriminate.
  apply lookup_insert_eq.
Qed.

(** The label [calculate_risk_level] gives to two floats. *)
Lemma calculate_risk_level_floats (g a : float) :
  Predictor.calculate_risk_level (student_with (PyFloat g) (PyFloat a))
  = Ok (PyStr
          (if PrimFloat.ltb g (float_of_Z 50) || PrimFloat.ltb a (float_of_Z 60)
           then "High Risk"
           else if PrimFloat.ltb g (float_of_Z 70)
                   || PrimFloat.ltb a (float_of_Z 75)
                then "Medium Risk" else "Low Risk")).
Proof.
  unfold Predictor.calculate_risk_level. run_py.
  rewrite student_with_grade, student_with_attendance. simpl.
  destruct (PrimFloat.ltb g (float_of_Z 50)),
    (PrimFloat.ltb a (float_of_Z 60)),
    (PrimFloat.ltb g (float_of_Z 70)),
    (PrimFloat.ltb a (float_of_Z 75)); reflexivity.
Qed.

(** The label the rules of [predict.py] give to two floats. *)
Lemma predict_rules_floats (float_of_string : string -> option float)
  (g a : float) :
  Predict.predict_student_risk float_of_string
    (student_data_with (PyFloat g) (PyFloat a))
  = (PyStr
       (if PrimFloat.ltb g (float_of_Z 60) || PrimFloat.ltb a (float_of_Z 70)
        then "High Risk"
        else if PrimFloat.ltb g (float_of_Z 75)
                || PrimFloat.ltb a (float_of_Z 80)
             then "Medium Risk" else "Low Risk"), []).
Proof.
  unfold Predict.predict_student_risk, Predict.risk_rules. run_py.
  rewrite student_data_with_grade, student_data_with_attendance. simpl.
  destruct (PrimFloat.ltb g (float_of_Z 60)),
    (PrimFloat.ltb a (float_of_Z 70)),
    (PrimFloat.ltb g (float_of_Z 75)),
    (PrimFloat.ltb a (float_of_Z 80)); reflexivity.
Qed.

Ltac split_bools :=
  repeat match goal with
    | |- context [PrimFloat.ltb ?x ?y] =>
        let E := fresh "E" in destruct (PrimFloat.ltb x y) eqn:E
    end.

(** X1. In [calculate_risk_level] a grade below 50 decides alone: with a
    float grade and an attendance rate of [None] the result is "High Risk"
    when the grade is below 50, and the [TypeError] of comparing [None]
    otherwise. *)
Theorem X1_failing_grade_masks_null_attendance :
  forall g : float,
    Predictor.calculate_risk_level (student_with (PyFloat g) PyNone)
    = if PrimFloat.ltb g (float_of_Z 50) then Ok (PyStr "High Risk")
      else Raise TypeError.
Proof.
  intros g. unfold Predictor.calculate_risk_level. run_py.
  rewrite student_with_grade, student_with_attendance. simpl.
  destruct (PrimFloat.ltb g (float_of_Z 50)); reflexivity.
Qed.

(** X2. [calculate_risk_level] is monotone on floats: raising the grade
    average and the attendance rate never raises the severity of the
    label. *)
Theorem X2_calculate_risk_level_monotone :
  forall g g' a a' : float,
    PrimFloat.leb g g' = true ->
    PrimFloat.leb a a' = true ->
    exists l l' n n',
      Predictor.calculate_risk_level (student_with (PyFloat g) (PyFloat a)) = Ok l
      /\ Predictor.calculate_risk_level (student_with (PyFloat g') (PyFloat a'))
         = Ok l'
      /\ severity l = Some n /\ severity l' = Some n' /\ n' <= n.
Proof.
  intros g g' a a' Hg Ha. rewrite !calculate_risk_level_floats.
  destruct (below_smaller g g' 50 Hg) as [G50 | G50],
    (below_smaller a a' 60 Ha) as [A60 | A60],
    (below_smaller g g' 70 Hg) as [G70 | G70],
    (below_smaller a a' 75 Ha) as [A75 | A75];
    rewrite ?G50, ?A60, ?G70, ?A75;
    split_bools; simpl;
    do 4 eexists; repeat split; try reflexivity; simpl; lia.
Qed.

Lemma X2_witness :
  exists l l' n n',
    Predictor.calculate_risk_level (student_with (PyFloat 55) (PyFloat 65)) = Ok l
    /\ Predictor.calculate_risk_level (student_with (PyFloat 80) (PyFloat 90))
       = Ok l'
    /\ severity l = Some n /\ severity l' = Some n' /\ n' <= n.
Proof.
  apply (X2_calculate_risk_level_monotone 55 80 65 90);
    vm_compute; reflexivity.
Defined.

(** X3. The rules of [predict.py] are monotone on floats: raising the
    grade and the attendance never raises the severity of the label. *)
Theorem X3_predict_rules_monotone :
  forall (float_of_string : string -> option float) (g g' a a' : float),
    PrimFloat.leb g g' = true ->
    PrimFloat.leb a a' = true ->
    exists l l' n n',
      Predict.predict_student_risk float_of_string
        (student_data_with (PyFloat g) (PyFloat a)) = (l, [])
      /\ Predict.predict_student_risk float_of_string
           (student_data_with (PyFloat g') (PyFloat a')) = (l', [])
      /\ severity l = Some n /\ severity l' = Some n' /\ n' <= n.
Proof.
  intros p g g' a a' Hg Ha. rewrite !predict_rules_floats.
  destruct (below_smaller g g' 60 Hg) as [G60 | G60],
    (below_smaller a a' 70 Ha) as [A70 | A70],
    (below_smaller g g' 75 Hg) as [G75 | G75],
    (below_smaller a a' 80 Ha) as [A80 | A80];
    rewrite ?G60, ?A70, ?G75, ?A80;
    split_bools; simpl;
    do 4 eexists; repeat split; try reflexivity; simpl; lia.
Qed.

Lemma X3_witness :
  exists l l' n n',
    Predict.predict_student_risk (fun _ => None)
      (student_data_with (PyFloat 55) (PyFloat 65)) = (l, [])
    /\ Predict.predict_student_risk (fun _ => None)
         (student_data_with (PyFloat 80) (PyFloat 90)) = (l', [])
    /\ severity l = Some n /\ severity l' = Some n' /\ n' <= n.
Proof.
  apply (X3_predict_rules_monotone (fun _ => None) 55 80 65 90);
    vm_compute; reflexivity.
Defined.

(** X4. The rules of [predict.py] (60/70, 75/80) are at least as severe as
    [calculate_risk_level] (50/60, 70/75): on the same two floats the
    label of [predict.py] is never milder. *)
Theorem X4_predict_rules_no_milder_than_fallback :
  forall (float_of_string : string -> option float) (g a : float),
    exists l l' n n',
      Predictor.calculate_risk_level (student_with (PyFloat g) (PyFloat a)) = Ok l
      /\ Predict.predict_student_risk float_of_string
           (student_data_with (PyFloat g) (PyFloat a)) = (l', [])
      /\ severity l = Some n /\ severity l' = Some n' /\ n <= n'.
Proof.
  intros p g a. rewrite calculate_risk_level_floats, predict_rules_floats.
  pose proof (below_weaken g 50 60 eq_refl) as G1.
  pose proof (below_weaken a 60 70 eq_refl) as A1.
  pose proof (below_weaken g 70 75 eq_refl) as G2.
  pose proof (below_weaken a 75 80 eq_refl) as A2.
  destruct (PrimFloat.ltb g (float_of_Z 50));
    [ rewrite (G1 eq_refl) | clear G1 ];
    (destruct (PrimFloat.ltb a (float_of_Z 60));
     [ rewrite (A1 eq_refl) | clear A1 ]);
    (destruct (PrimFloat.ltb g (float_of_Z 70));
     [ rewrite (G2 eq_refl) | clear G2 ]);
    (destruct (PrimFloat.ltb a (float_of_Z 75));
     [ rewrite (A2 eq_refl) | clear A2 ]);
    split_bools; simpl;
    do 4 eexists; repeat split; try reflexivity; simpl; lia.
Qed.

Section PredictTotal.

Variable float_of_string : string -> option float.

Lemma to_numeric_cases (v : pyval) :
  (float_okb v = true /\
   ((exists f, Predict.to_numeric float_of_string v = Ok (PyFloat f))
    \/ Predict.to_numeric float_of_string v = Ok (PyInt 0)))
  \/ (float_okb v = false
      /\ Predict.to_numeric float_of_string v = Raise OverflowError).
Proof.
  unfold Predict.to_numeric, Predict.py_float, float_okb.
  destruct v as [ | b | z | f | s | d ]; simpl; eauto.
  - destruct (PrimFloat.is_infinity (float_of_Z z)); simpl; eauto.
  - destruct (float_of_string s); eauto.
Qed.

(** Once both operands are converted the thresholds cannot fail. *)
Lemma rules_after_conversion (d : obj) (g a : pyval) :
  Predict.to_numeric float_of_string (dict_get_default d "grade" (PyInt 0))
  = Ok g ->
  Predict.to_numeric float_of_string (dict_get_default d "attendance" (PyInt 0))
  = Ok a ->
  is_number g -> is_number a ->
  exists label,
    Predict.predict_student_risk float_of_string d = (label, [])
    /\ canonical_label label.
Proof.
  intros Eg Ea Ng Na.
  destruct (py_lt_int_number g 60 Ng) as [g60 Eg60].
  destruct (py_lt_int_number a 70 Na) as [a70 Ea70].
  destruct (py_lt_int_number g 75 Ng) as [g75 Eg75].
  destruct (py_lt_int_number a 80 Na) as [a80 Ea80].
  unfold Predict.predict_student_risk, Predict.risk_rules, canonical_label.
  rewrite Eg, Ea. unfold mbind, result_bind, py_or. simpl.
  rewrite Eg60, Ea70, Eg75, Ea80.
  destruct g60, a70, g75, a80; eauto 6.
Qed.

End PredictTotal.

(** X5. [predict_student_risk] of [predict.py] answers every dict: when
    neither value is an int beyond the double range it returns one of the
    three canonical labels and prints nothing; otherwise [float] raises
    [OverflowError], and it returns "Unknown Risk" after printing that
    error. *)
Theorem X5_predict_rules_total :
  forall (float_of_string : string -> option float) (d : obj),
    let g := dict_get_default d "grade" (PyInt 0) in
    let a := dict_get_default d "attendance" (PyInt 0) in
    (float_okb g && float_okb a = true ->
     canonical_label (fst (Predict.predict_student_risk float_of_string d))
     /\ snd (Predict.predict_student_risk float_of_string d) = [])
    /\ (float_okb g && float_okb a = false ->
        Predict.predict_student_risk float_of_string d
        = (PyStr "Unknown Risk",
           [Predict.ErrorInRiskPrediction OverflowError])).
Proof.
  intros p d g a. subst g a.
  destruct (to_numeric_cases p (dict_get_default d "grade" (PyInt 0)))
    as [[Og Eg] | [Og Eg]];
    destruct (to_numeric_cases p (dict_get_default d "attendance" (PyInt 0)))
      as [[Oa Ea] | [Oa Ea]];
    rewrite Og, Oa; simpl; split; intros H; try discriminate H.
  - assert (exists label,
               Predict.predict_student_risk p d = (label, [])
               /\ canonical_label label) as [label [E C]].
    { destruct Eg as [[fg Eg] | Eg], Ea as [[fa Ea] | Ea];
        eapply rules_after_conversion; eauto; exact I. }
    rewrite E. split; [ exact C | reflexivity ].
  - unfold Predict.predict_student_risk, Predict.risk_rules.
    destruct Eg as [[fg Eg] | Eg]; rewrite Eg, Ea; reflexivity.
  - unfold Predict.predict_student_risk, Predict.risk_rules.
    rewrite Eg. reflexivity.
  - unfold Predict.predict_student_risk, Predict.risk_rules.
    rewrite Eg. reflexivity.
Qed.

Lemma X5_witness :
  (canonical_label
     (fst (Predict.predict_student_risk (fun _ => None)
             (student_data_with (PyStr "n/a") PyNone)))
   /\ snd (Predict.predict_student_risk (fun _ => None)
             (student_data_with (PyStr "n/a") PyNone)) = [])
  /\ Predict.predict_student_risk (fun _ => None)
       (student_data_with (PyFloat 90) (PyInt (2 ^ 1024)))
     = (PyStr "Unknown Risk", [Predict.ErrorInRiskPrediction OverflowError]).
Proof.
  split.
  - apply (X5_predict_rules_total (fun _ => None)
             (student_data_with (PyStr "n/a") PyNone)).
    vm_compute. reflexivity.
  - apply (X5_predict_rules_total (fun _ => None)
             (student_data_with (PyFloat 90) (PyInt (2 ^ 1024)))).
    vm_compute. reflexivity.
Defined.

(** X6. For [predict.py] a grade that is absent or [None] counts as 0:
    whatever the attendance (short of an int beyond the double range), the
    student is rated "High Risk" and nothing is printed. *)
Theorem X6_missing_grade_is_high_risk :
  forall (float_of_string : string -> option float) (d : obj),
    absent_or_none d "grade" ->
    float_okb (dict_get_default d "attendance" (PyInt 0)) = true ->
    Predict.predict_student_risk float_of_string d = (PyStr "High Risk", []).
Proof.
  intros p d Hg Ha.
  destruct (to_numeric_cases p (dict_get_default d "attendance" (PyInt 0)))
    as [[_ Ea] | [Oa _]]; [ | congruence ].
  unfold Predict.predict_student_risk, Predict.risk_rules.
  assert (exists g0,
             Predict.to_numeric p (dict_get_default d "grade" (PyInt 0)) = Ok g0
             /\ py_lt_int g0 60 = Ok true) as [g0 [Eg L]].
  { unfold dict_get_default. destruct Hg as [-> | ->].
    - exists (PyFloat (float_of_Z 0)). split; vm_compute; reflexivity.
    - exists (PyInt 0). split; reflexivity. }
  rewrite Eg. unfold mbind, result_bind, py_or.
  destruct Ea as [[fa ->] | ->]; rewrite L; reflexivity.
Qed.

Lemma X6_witness :
  Predict.predict_student_risk (fun _ => None)
    (<["attendance" := PyFloat 100]> ∅) = (PyStr "High Risk", []).
Proof.
  apply (X6_missing_grade_is_high_risk (fun _ => None)
           (<["attendance" := PyFloat 100]> ∅)).
  - left. vm_compute. reflexivity.
  - vm_compute. reflexivity.
Defined.

Lemma nan_not_below (x : float) : PrimFloat.ltb nan x = false.
Proof. rewrite ltb_spec. reflexivity. Qed.

Lemma infinity_not_below (x : float) : PrimFloat.ltb infinity x = false.
Proof.
  rewrite ltb_spec. change (Prim2SF infinity) with (S754_infinity false).
  unfold SFltb. destruct (Prim2SF x) as [ s | s | | s m e ]; simpl;
    try reflexivity; destruct s; reflexivity.
Qed.

(** X7. A NaN is never flagged.  Both rule sets rate a NaN grade exactly
    as they rate an infinitely high one, whatever the attendance value is,
    and [calculate_risk_level] answers "Low Risk" when both values are
    NaN. *)
Theorem X7_nan_grade_counts_as_best :
  (forall a : pyval,
      Predictor.calculate_risk_level (student_with (PyFloat nan) a)
      = Predictor.calculate_risk_level (student_with (PyFloat infinity) a))
  /\ (forall (float_of_string : string -> option float) (a : pyval),
         Predict.predict_student_risk float_of_string
           (student_data_with (PyFloat nan) a)
         = Predict.predict_student_risk float_of_string
             (student_data_with (PyFloat infinity) a))
  /\ Predictor.calculate_risk_level (student_with (PyFloat nan) (PyFloat nan))
     = Ok (PyStr "Low Risk").
Proof.
  split; [ | split ].
  - intros a. unfold Predictor.calculate_risk_level. run_py.
    rewrite !student_with_grade, !student_with_attendance. simpl.
    rewrite ?nan_not_below, ?infinity_not_below. reflexivity.
  - intros p a. unfold Predict.predict_student_risk, Predict.risk_rules.
    run_py. rewrite !student_data_with_grade, !student_data_with_attendance.
    simpl. destruct (Predict.to_numeric p a) as [a' | e]; [ | reflexivity ].
    simpl. rewrite ?nan_not_below, ?infinity_not_below. reflexivity.
  - rewrite calculate_risk_level_floats, ?nan_not_below. reflexivity.
Qed.

(* ===================================================================== *)
(** ** More on the classifier path and the batch updater *)
(* ===================================================================== *)

(** X8. With numeric [grade_average] and [attendance_rate],
    [predict_student_risk] of [predictor.py] never raises, whatever
    happens to the model file or inside the model: it returns one of the
    three canonical labels or "Unknown Risk". *)
Theorem X8_numeric_student_always_gets_a_label :
  forall (load : Predictor.model_load) (student : obj) (g a : pyval),
    student !! "grade_average" = Some g ->
    student !! "attendance_rate" = Some a ->
    is_number g -> is_number a ->
    exists label,
      Predictor.predict_student_risk load student = Ok label
      /\ risk_label label.
Proof. exact predict_student_risk_number. Qed.

Lemma X8_witness :
  exists label,
    Predictor.predict_student_risk (Ok rejecting_model)
      (student_with (PyInt 72) (PyFloat 91)) = Ok label
    /\ risk_label label.
Proof.
  apply (X8_numeric_student_always_gets_a_label (Ok rejecting_model)
           (student_with (PyInt 72) (PyFloat 91)) (PyInt 72) (PyFloat 91));
    try exact I; vm_compute; reflexivity.
Defined.

(** X9. The model's answer wins over the thresholds.  When the loaded
    model answers a class index 0, 1 or 2 for the row
    [[grade_average, attendance_rate]], [predict_student_risk] returns the
    label of that class, whatever the two values are, non-numeric ones
    included. *)
Theorem X9_model_answer_overrides_rules :
  forall (m : Predictor.model) (student : obj) (g a : pyval) (z : Z)
         (rest : list pyval),
    student !! "grade_average" = Some g ->
    student !! "attendance_rate" = Some a ->
    m [[g; a]] = Ok (PyInt z :: rest) ->
    (0 <= z <= 2)%Z ->
    Predictor.predict_student_risk (Ok m) student = Ok (PyStr (class_label z)).
Proof.
  intros m student g a z rest Hg Ha Hm Hz.
  unfold Predictor.predict_student_risk, Predictor.predict_with_model,
    Predictor.features. run_py. rewrite Hg, Ha. simpl. rewrite Hm. simpl.
  assert (z = 0 \/ z = 1 \/ z = 2)%Z as [-> | [-> | ->]] by lia; reflexivity.
Qed.

Lemma X9_witness :
  Predictor.predict_student_risk (Ok optimistic_model)
    (student_with PyNone (PyFloat 10)) = Ok (PyStr "Low Risk").
Proof.
  apply (X9_model_answer_overrides_rules optimistic_model
           (student_with PyNone (PyFloat 10)) PyNone (PyFloat 10) 0 []);
    try reflexivity; try (vm_compute; reflexivity). lia.
Defined.

(** [predict_student_risk] reads nothing but the two attributes. *)
Lemma predict_student_risk_reads_two (load : Predictor.model_load)
  (s1 s2 : obj) :
  s1 !! "grade_average" = s2 !! "grade_average" ->
  s1 !! "attendance_rate" = s2 !! "attendance_rate" ->
  Predictor.predict_student_risk load s1 = Predictor.predict_student_risk load s2.
Proof.
  intros Hg Ha.
  unfold Predictor.predict_student_risk, Predictor.predict_with_model,
    Predictor.features.
  rewrite (calculate_risk_level_reads_two s1 s2 Hg Ha).
  unfold getattr. rewrite Hg, Ha. reflexivity.
Qed.

Lemma predict_after_assessment (load : Predictor.model_load) (s : obj)
  (v : pyval) :
  Predictor.predict_student_risk load (<["risk_level" := v]> s)
  = Predictor.predict_student_risk load s.
Proof.
  apply predict_student_risk_reads_two;
    rewrite lookup_insert_ne by discriminate; reflexivity.
Qed.

Lemma update_loop_idempotent (load : Predictor.model_load)
  (students students' : list obj) :
  Predictor.update_loop load students = (students', None) ->
  Predictor.update_loop load students' = (students', None).
Proof.
  revert students'. induction students as [ | s rest IH ]; intros students'.
  - simpl. intros [= <-]. reflexivity.
  - simpl. destruct (Predictor.predict_student_risk load s) as [v | e] eqn:E;
      [ | discriminate ].
    destruct (Predictor.update_loop load rest) as [rest' r] eqn:R.
    intros [= <- ->]. simpl.
    rewrite predict_after_assessment, E, (IH rest' eq_refl).
    rewrite insert_insert_eq. reflexivity.
Qed.

(** X10. A successful batch update is idempotent: running
    [update_all_student_risks] again on the state it left gives the same
    state back. *)
Theorem X10_batch_update_idempotent :
  forall (load : Predictor.model_load) (st st' : Predictor.db),
    Predictor.update_all_student_risks load st = (Ok tt, st') ->
    Predictor.update_all_student_risks load st' = (Ok tt, st').
Proof.
  intros load st st'. unfold Predictor.update_all_student_risks.
  destruct (Predictor.update_loop load (Predictor.session_students st))
    as [students r] eqn:E.
  destruct r as [e | ]; [ discriminate | ].
  intros [= <-]. simpl.
  rewrite (update_loop_idempotent load _ _ E). reflexivity.
Qed.

Lemma X10_witness :
  Predictor.update_all_student_risks no_model
    (snd (Predictor.update_all_student_risks no_model
            (clean_db roster_all_numeric)))
  = (Ok tt,
     snd (Predictor.update_all_student_risks no_model
            (clean_db roster_all_numeric))).
Proof.
  apply (X10_batch_update_idempotent no_model (clean_db roster_all_numeric)).
  vm_compute. reflexivity.
Defined.

Lemma update_loop_first_throw (load : Predictor.model_load)
  (before : list obj) (failing : obj) (after : list obj) (e : exn) :
  Forall (predicts load) before ->
  Predictor.predict_student_risk load failing = Raise e ->
  exists before',
    Predictor.update_loop load (before ++ failing :: after)
    = (before' ++ failing :: after, Some e)
    /\ Forall2 (assessed load) before before'.
Proof.
  intros H E. induction before as [ | s rest IH ].
  - exists []. simpl. rewrite E. split; [ reflexivity | constructor ].
  - inversion H as [ | ? ? [v Hv] Hrest ]; subst.
    destruct (IH Hrest) as [rest' [R F]].
    exists (<["risk_level" := v]> s :: rest'). simpl. rewrite Hv, R.
    split; [ reflexivity | ].
    constructor; [ exists v; split; [ exact Hv | reflexivity ] | exact F ].
Qed.

(** X11. When a student's prediction raises, [update_all_student_risks]
    raises that student's exception.  The students before it keep their
    new risk level in the session, the failing student and the ones after
    it are untouched, and the committed roster is the old one: the session
    is left with uncommitted changes. *)
Theorem X11_batch_update_stops_at_first_failure :
  forall (load : Predictor.model_load) (before : list obj) (failing : obj)
         (after committed : list obj) (e : exn),
    Forall (predicts load) before ->
    Predictor.predict_student_risk load failing = Raise e ->
    exists before',
      Predictor.update_all_student_risks load
        {| Predictor.session_students := before ++ failing :: after;
           Predictor.committed_students := committed |}
      = (Raise e,
         {| Predictor.session_students := before' ++ failing :: after;
            Predictor.committed_students := committed |})
      /\ Forall2 (assessed load) before before'.
Proof.
  intros load before failing after committed e H E.
  destruct (update_loop_first_throw load before failing after e H E)
    as [before' [R F]].
  exists before'. unfold Predictor.update_all_student_risks. simpl.
  rewrite R. split; [ reflexivity | exact F ].
Qed.

Lemma X11_witness :
  exists before',
    Predictor.update_all_student_risks no_model
      {| Predictor.session_students :=
           [student_with (PyFloat 90) (PyFloat 95)]
             ++ student_with PyNone (PyFloat 80)
             :: [student_with (PyFloat 40) (PyFloat 50)];
         Predictor.committed_students := [] |}
    = (Raise TypeError,
       {| Predictor.session_students :=
            before' ++ student_with PyNone (PyFloat 80)
              :: [student_with (PyFloat 40) (PyFloat 50)];
          Predictor.committed_students := [] |})
    /\ Forall2 (assessed no_model) [student_with (PyFloat 90) (PyFloat 95)]
         before'.
Proof.
  apply (X11_batch_update_stops_at_first_failure no_model
           [student_with (PyFloat 90) (PyFloat 95)]
           (student_with PyNone (PyFloat 80))
           [student_with (PyFloat 40) (PyFloat 50)] [] TypeError).
  - repeat constructor. eexists. vm_compute. reflexivity.
  - vm_compute. reflexivity.
Defined.

Lemma predicts_or_throws (load : Predictor.model_load) (students : list obj) :
  Forall (predicts load) students \/ Exists (throws load) students.
Proof.
  induction students as [ | s rest [IH | IH] ].
  - left. constructor.
  - destruct (Predictor.predict_student_risk load s) as [v | e] eqn:E.
    + left. constructor; [ exists v; exact E | exact IH ].
    + right. apply Exists_cons_hd. exists e. exact E.
  - right. apply Exists_cons_tl. exact IH.
Qed.

(** X12. The endpoint [api_update_risks] never raises: it answers
    [success = True] exactly when the prediction of every student
    returned, and in that case the new state is committed; otherwise it
    answers [success = False] and the committed roster is the old one. *)
Theorem X12_api_update_risks_reports_batch_outcome :
  forall (load : Predictor.model_load) (st : Predictor.db),
    (App.success (fst (App.api_update_risks load st)) = true
     <-> Forall (predicts load) (Predictor.session_students st))
    /\ (App.success (fst (App.api_update_risks load st)) = true ->
        Predictor.committed_students (snd (App.api_update_risks load st))
        = Predictor.session_students (snd (App.api_update_risks load st)))
    /\ (App.success (fst (App.api_update_risks load st)) = false ->
        Predictor.committed_students (snd (App.api_update_risks load st))
        = Predictor.committed_students st).
Proof.
  intros load st.
  unfold App.api_update_risks, Predictor.update_all_student_risks.
  destruct (predicts_or_throws load (Predictor.session_students st)) as [H | H].
  - destruct (update_loop_all_predict load _ H) as [students' [E _]].
    rewrite E. simpl. repeat split; auto; discriminate.
  - destruct (update_loop_some_throw load _ H) as [students' [e E]].
    rewrite E. simpl. repeat split; try discriminate; auto.
    intros F. exfalso.
    destruct (update_loop_all_predict load _ F) as [s'' [E' _]]. congruence.
Qed.

Lemma X12_witness :
  Predictor.committed_students
    (snd (App.api_update_risks no_model (clean_db roster_with_null_grade)))
  = roster_with_null_grade
  /\ Predictor.committed_students
       (snd (App.api_update_risks no_model
               {| Predictor.session_students := roster_all_numeric;
                  Predictor.committed_students := [] |}))
     = Predictor.session_students
         (snd (App.api_update_risks no_model
                 {| Predictor.session_students := roster_all_numeric;
                    Predictor.committed_students := [] |})).
Proof.
  split.
  - apply (X12_api_update_risks_reports_batch_outcome no_model
             (clean_db roster_with_null_grade)).
    vm_compute. reflexivity.
  - apply (X12_api_update_risks_reports_batch_outcome no_model
             {| Predictor.session_students := roster_all_numeric;
                Predictor.committed_students := [] |}).
    vm_compute. reflexivity.
Defined.

(* ===================================================================== *)
(** ** More on train_model *)
(* ===================================================================== *)

Ltac run_train :=
  unfold Train.train_model, Train.try_reraise_finally, Train.train_body,
    Train.fit_and_save, Train.bind, Train.print, Train.dump,
    Train.get_session, Train.session_close, Train.lift;
  simpl.

Ltac split_collaborators :=
  repeat match goal with
    | |- context [match ?x with _ => _ end] =>
        match type of x with
        | result _ => destruct x eqn:?
        | bool => destruct x eqn:?
        | prod _ _ => is_var x; destruct x
        end; simpl
    end.

Section TrainModel.

Variable classifier : Type.
Variable prepare_training_data : result Train.training_data.
Variable train_test_split :
  list (list float) -> list Z ->
  result (list (list float) * list (list float) * list Z * list Z).
Variable fit : list (list float) -> list Z -> result classifier.
Variable predict : classifier -> list (list float) -> result (list Z).
Variable accuracy_score : list Z -> list Z -> result float.
Variable classification_report : list Z -> list Z -> result string.

Lemma train_model_closes_session (w : Train.world classifier) :
  Train.session_open classifier
    (snd (Train.train_model classifier prepare_training_data train_test_split
            fit predict accuracy_score classification_report w)) = false.
Proof. run_train. split_collaborators; reflexivity. Qed.

Lemma train_model_failure (w : Train.world classifier) (e : exn) :
  fst (Train.train_model classifier prepare_training_data train_test_split
         fit predict accuracy_score classification_report w) = Raise e ->
  Train.files classifier
    (snd (Train.train_model classifier prepare_training_data train_test_split
            fit predict accuracy_score classification_report w))
  = Train.files classifier w
  /\ exists printed,
      Train.stdout classifier
        (snd (Train.train_model classifier prepare_training_data
                train_test_split fit predict accuracy_score
                classification_report w))
      = printed ++ [Train.ErrorDuringTraining e].
Proof.
  run_train. split_collaborators; intros H; try discriminate H;
    injection H as <-; (split; [ reflexivity | eexists; reflexivity ]).
Qed.

End TrainModel.

(** X13. [train_model] always leaves the database session closed: after
    the early return on an empty dataset, after a completed training, and
    after any exception of the data preparation or of scikit-learn. *)
Theorem X13_train_model_closes_session :
  forall (classifier : Type)
         (prepare_training_data : result Train.training_data)
         (train_test_split :
           list (list float) -> list Z ->
           result (list (list float) * list (list float) * list Z * list Z))
         (fit : list (list float) -> list Z -> result classifier)
         (predict : classifier -> list (list float) -> result (list Z))
         (accuracy_score : list Z -> list Z -> result float)
         (classification_report : list Z -> list Z -> result string)
         (w : Train.world classifier),
    Train.session_open classifier
      (snd (Train.train_model classifier prepare_training_data
              train_test_split fit predict accuracy_score
              classification_report w)) = false.
Proof. exact train_model_closes_session. Qed.

(** X14. When [train_model] raises (the data preparation, the split, the
    fit, the prediction, the scoring or the report failed), every file
    under the project root is as before the call, so a failed training
    never replaces an artifact, and the last line printed is the error
    line for the exception it re-raises. *)
Theorem X14_failed_training_writes_nothing :
  forall (classifier : Type)
         (prepare_training_data : result Train.training_data)
         (train_test_split :
           list (list float) -> list Z ->
           result (list (list float) * list (list float) * list Z * list Z))
         (fit : list (list float) -> list Z -> result classifier)
         (predict : classifier -> list (list float) -> result (list Z))
         (accuracy_score : list Z -> list Z -> result float)
         (classification_report : list Z -> list Z -> result string)
         (w : Train.world classifier) (e : exn),
    fst (Train.train_model classifier prepare_training_data train_test_split
           fit predict accuracy_score classification_report w) = Raise e ->
    Train.files classifier
      (snd (Train.train_model classifier prepare_training_data
              train_test_split fit predict accuracy_score
              classification_report w))
    = Train.files classifier w
    /\ exists printed,
        Train.stdout classifier
          (snd (Train.train_model classifier prepare_training_data
                  train_test_split fit predict accuracy_score
                  classification_report w))
        = printed ++ [Train.ErrorDuringTraining e].
Proof. exact train_model_failure. Qed.

Lemma X14_witness :
  Train.files unit
    (snd (Train.train_model unit (Ok two_row_data) failing_split trivial_fit
            always_one full_marks empty_report world_with_artifact))
  = Train.files unit world_with_artifact
  /\ exists printed,
      Train.stdout unit
        (snd (Train.train_model unit (Ok two_row_data) failing_split
                trivial_fit always_one full_marks empty_report
                world_with_artifact))
      = printed ++ [Train.ErrorDuringTraining ValueError].
Proof.
  apply (X14_failed_training_writes_nothing unit (Ok two_row_data)
           failing_split trivial_fit always_one full_marks empty_report
           world_with_artifact ValueError).
  reflexivity.
Defined.

(** X15. When the dataset has rows and every step succeeds, [train_model]
    returns normally having written exactly two files: the classifier
    fitted on the training part of the split at
    [data/trained_model.pkl], and at [data/feature_info.pkl] the feature
    names of the prepared data with the accuracy scored on the test part.
    Other files are untouched and the session is closed. *)
Theorem X15_successful_training_writes_both_artifacts :
  forall (classifier : Type)
         (train_test_split :
           list (list float) -> list Z ->
           result (list (list float) * list (list float) * list Z * list Z))
         (fit : list (list float) -> list Z -> result classifier)
         (predict : classifier -> list (list float) -> result (list Z))
         (accuracy_score : list Z -> list Z -> result float)
         (classification_report : list Z -> list Z -> result string)
         (data : Train.training_data) (w : Train.world classifier)
         (X_train X_test : list (list float)) (y_train y_test y_pred : list Z)
         (model : classifier) (accuracy : float) (report : string),
    Train.shape0 (Train.X data) <> 0 ->
    train_test_split (Train.X data) (Train.y data)
    = Ok (X_train, X_test, y_train, y_test) ->
    fit X_train y_train = Ok model ->
    predict model X_test = Ok y_pred ->
    accuracy_score y_test y_pred = Ok accuracy ->
    classification_report y_test y_pred = Ok report ->
    fst (Train.train_model classifier (Ok data) train_test_split fit predict
           accuracy_score classification_report w) = Ok tt
    /\ Train.files classifier
         (snd (Train.train_model classifier (Ok data) train_test_split fit
                 predict accuracy_score classification_report w))
       = <["data/feature_info.pkl" :=
             Train.FeatureInfoPkl classifier (Train.feature_names data) accuracy]>
           (<["data/trained_model.pkl" := Train.ModelPkl classifier model]>
              (Train.files classifier w))
    /\ Train.session_open classifier
         (snd (Train.train_model classifier (Ok data) train_test_split fit
                 predict accuracy_score classification_report w)) = false.
Proof.
  intros classifier tts fit predict acc rep data w X_train X_test y_train
    y_test y_pred model accuracy report Hrows Hs Hf Hp Ha Hr.
  run_train.
  destruct (Nat.eqb_spec (Train.shape0 (Train.X data)) 0) as [E | _];
    [ contradiction | ].
  simpl. rewrite Hs. simpl. rewrite Hf. simpl. rewrite Hp. simpl.
  rewrite Ha. simpl. rewrite Hr. simpl. repeat split.
Qed.

Lemma X15_witness :
  fst (Train.train_model unit (Ok two_row_data) head_tail_split trivial_fit
         always_one full_marks empty_report world_with_artifact) = Ok tt
  /\ Train.files unit
       (snd (Train.train_model unit (Ok two_row_data) head_tail_split
               trivial_fit always_one full_marks empty_report
               world_with_artifact))
     = <["data/feature_info.pkl" :=
           Train.FeatureInfoPkl unit ["grade_average"; "attendance_rate"] 1%float]>
         (<["data/trained_model.pkl" := Train.ModelPkl unit tt]>
            (Train.files unit world_with_artifact))
  /\ Train.session_open unit
       (snd (Train.train_model unit (Ok two_row_data) head_tail_split
               trivial_fit always_one full_marks empty_report
               world_with_artifact)) = false.
Proof.
  apply (X15_successful_training_writes_both_artifacts unit head_tail_split
           trivial_fit always_one full_marks empty_report two_row_data
           world_with_artifact [[80%float; 90%float]] [[40%float; 50%float]]
           [0%Z] [1%Z] [1%Z] tt 1%float "");
    try reflexivity.
  discriminate.
Defined.

(* ===================================================================== *)
(** ** The text helpers of utils.py *)
(* ===================================================================== *)

(** X16. When the suffix fits into [max_length], the result of
    [truncate_text] is never longer than [max_length]: it is the text
    itself, or it has exactly [max_length] items, made of a proper prefix
    of the text followed by the suffix. *)
Theorem X16_truncate_text_within_bound :
  forall (A : Type) (text suffix : list A) (max_length : Z),
    (Z.of_nat (length suffix) <= max_length)%Z ->
    (Z.of_nat (length (Text.truncate_text text max_length suffix))
     <= max_length)%Z
    /\ (Text.truncate_text text max_length suffix = text
        \/ (Z.of_nat (length (Text.truncate_text text max_length suffix))
            = max_length
            /\ exists kept dropped,
                text = kept ++ dropped /\ dropped <> []
                /\ Text.truncate_text text max_length suffix = kept ++ suffix)).
Proof.
  intros A text suffix max_length Hs. unfold Text.truncate_text.
  destruct (Z.leb_spec (Z.of_nat (length text)) max_length) as [Hfit | Hlong].
  - split; [ exact Hfit | left; reflexivity ].
  - unfold slice_to.
    destruct (Z.ltb_spec (max_length - Z.of_nat (length suffix)) 0) as [Hn | Hn];
      [ lia | ].
    rewrite Z.min_l by lia.
    assert (length (firstn (Z.to_nat (max_length - Z.of_nat (length suffix))) text)
            = Z.to_nat (max_length - Z.of_nat (length suffix))) as L.
    { rewrite length_firstn. lia. }
    rewrite length_app, L. split; [ lia | right ]. split; [ lia | ].
    exists (firstn (Z.to_nat (max_length - Z.of_nat (length suffix))) text),
      (skipn (Z.to_nat (max_length - Z.of_nat (length suffix))) text).
    split; [ symmetry; apply firstn_skipn | ]. split; [ | reflexivity ].
    intros E. apply (f_equal (@length A)) in E.
    rewrite length_skipn in E. simpl in E. lia.
Qed.

Lemma X16_witness :
  (Z.of_nat (length (Text.truncate_text hello_world 8 dots)) <= 8)%Z
  /\ (Text.truncate_text hello_world 8 dots = hello_world
      \/ (Z.of_nat (length (Text.truncate_text hello_world 8 dots)) = 8%Z
          /\ exists kept dropped,
              hello_world = kept ++ dropped /\ dropped <> []
              /\ Text.truncate_text hello_world 8 dots = kept ++ dots)).
Proof.
  apply (X16_truncate_text_within_bound N hello_world dots 8).
  vm_compute. discriminate.
Defined.

(** X17. When the suffix is longer than [max_length] and the text does
    not fit, the slice index is negative and counts from the end of the
    text: the result is longer than [max_length]; its length is that of
    the suffix plus what remains of the text after dropping as many items
    as the suffix exceeds [max_length] by. *)
Theorem X17_truncate_text_exceeds_bound_for_long_suffix :
  forall (A : Type) (text suffix : list A) (max_length : Z),
    (max_length < Z.of_nat (length suffix))%Z ->
    (max_length < Z.of_nat (length text))%Z ->
    Z.of_nat (length (Text.truncate_text text max_length suffix))
    = (Z.max 0 (Z.of_nat (length text) + max_length - Z.of_nat (length suffix))
       + Z.of_nat (length suffix))%Z
    /\ (max_length
        < Z.of_nat (length (Text.truncate_text text max_length suffix)))%Z.
Proof.
  intros A text suffix max_length Hs Hlong. unfold Text.truncate_text.
  destruct (Z.leb_spec (Z.of_nat (length text)) max_length) as [Hfit | _];
    [ lia | ].
  unfold slice_to.
  destruct (Z.ltb_spec (max_length - Z.of_nat (length suffix)) 0) as [Hn | Hn];
    [ | lia ].
  rewrite length_app, length_firstn. lia.
Qed.

Lemma X17_witness :
  Z.of_nat (length (Text.truncate_text hello_world 2 dots))
  = (Z.max 0 (Z.of_nat (length hello_world) + 2 - Z.of_nat (length dots))
     + Z.of_nat (length dots))%Z
  /\ (2 < Z.of_nat (length (Text.truncate_text hello_world 2 dots)))%Z.
Proof.
  apply (X17_truncate_text_exceeds_bound_for_long_suffix N hello_world dots 2);
    vm_compute; reflexivity.
Defined.

Section PhoneNumbers.

Variable isdigit : N -> bool.
Hypothesis signs : signs_are_no_digits isdigit.

Lemma filter_digits_only (l : list N) :
  Forall (fun c => isdigit c = true) l -> List.filter isdigit l = l.
Proof.
  induction 1 as [ | c l Hc _ IH ]; simpl; [ reflexivity | ].
  rewrite Hc, IH. reflexivity.
Qed.

Lemma digits_are_digits (phone : list N) :
  Forall (fun c => isdigit c = true) (List.filter isdigit phone).
Proof.
  apply List.Forall_forall. intros c Hc.
  apply List.filter_In in Hc. tauto.
Qed.

Lemma firstn_digits (n : nat) (l : list N) :
  Forall (fun c => isdigit c = true) l ->
  Forall (fun c => isdigit c = true) (firstn n l).
Proof. intros H. apply Forall_take. exact H. Qed.

Lemma skipn_digits (n : nat) (l : list N) :
  Forall (fun c => isdigit c = true) l ->
  Forall (fun c => isdigit c = true) (skipn n l).
Proof. intros H. apply Forall_drop. exact H. Qed.

Lemma three_groups (a : nat) (l : list N) :
  firstn 3 (skipn a l) ++ firstn 3 (skipn (3 + a) l) ++ skipn (6 + a) l
  = skipn a l.
Proof.
  rewrite <- (List.skipn_skipn 3 a l).
  change (6 + a) with (3 + (3 + a)).
  rewrite <- (List.skipn_skipn 3 (3 + a) l), <- (List.skipn_skipn 3 a l).
  rewrite (firstn_skipn 3 (skipn 3 (skipn a l))).
  apply firstn_skipn.
Qed.

(** The digits of the formatted number are the digits of the input. *)
Lemma format_keeps_digits (phone : list N) :
  List.filter isdigit (Text.format_phone_number isdigit phone)
  = List.filter isdigit phone.
Proof.
  destruct signs as [Hl [Hr [Hs [Hh Hp]]]].
  destruct phone as [ | c phone ]; [ reflexivity | ].
  unfold Text.format_phone_number.
  set (digits := List.filter isdigit (c :: phone)).
  pose proof (digits_are_digits (c :: phone)) as D. fold digits in D.
  destruct (Nat.eqb (length digits) 10).
  - unfold slice, slice_from.
    rewrite !List.filter_app. cbn [List.filter].
    rewrite Hl, Hr, Hs, Hh. cbn [app].
    rewrite !filter_digits_only
      by (try apply firstn_digits; apply skipn_digits; exact D).
    exact (three_groups 0 digits).
  - destruct (Nat.eqb (length digits) 11); [ | exact eq_refl ].
    rewrite andb_true_l.
    destruct digits as [ | d rest ] eqn:E; [ exact E | ].
    destruct (N.eqb_spec d Text.one) as [-> | _]; [ | exact E ].
    unfold slice, slice_from.
    rewrite !List.filter_app. cbn [List.filter].
    assert (isdigit Text.one = true) as H1 by (inversion D; assumption).
    rewrite Hl, Hr, Hs, Hh, Hp, H1. cbn [app].
    rewrite !filter_digits_only
      by (try apply firstn_digits; apply skipn_digits; exact D).
    f_equal. exact (three_groups 1 (Text.one :: rest)).
Qed.

End PhoneNumbers.

Lemma format_by_layout (isdigit : N -> bool) (phone : Text.str) :
  phone <> [] ->
  Text.format_phone_number isdigit phone
  = phone_layout (List.filter isdigit phone) phone.
Proof. destruct phone; [ congruence | reflexivity ]. Qed.

(** X18. [format_phone_number] never changes the digits of a number:
    filtering the digits out of its result gives the same digits as
    filtering them out of the input (given that the Unicode database does
    not count parentheses, space, hyphen and plus as digits). *)
Theorem X18_format_phone_number_keeps_digits :
  forall (isdigit : N -> bool) (phone : Text.str),
    signs_are_no_digits isdigit ->
    List.filter isdigit (Text.format_phone_number isdigit phone)
    = List.filter isdigit phone.
Proof. intros isdigit phone H. exact (format_keeps_digits isdigit H phone). Qed.

Lemma X18_witness :
  List.filter ascii_isdigit (Text.format_phone_number ascii_isdigit sample_phone)
  = List.filter ascii_isdigit sample_phone.
Proof.
  apply (X18_format_phone_number_keeps_digits ascii_isdigit sample_phone).
  repeat split.
Defined.

(** X19. [format_phone_number] is idempotent: formatting a formatted
    number changes nothing. *)
Theorem X19_format_phone_number_idempotent :
  forall (isdigit : N -> bool) (phone : Text.str),
    signs_are_no_digits isdigit ->
    Text.format_phone_number isdigit (Text.format_phone_number isdigit phone)
    = Text.format_phone_number isdigit phone.
Proof.
  intros isdigit phone H.
  destruct phone as [ | c phone ]; [ reflexivity | ].
  assert (Text.format_phone_number isdigit (c :: phone) <> []) as NE.
  { rewrite format_by_layout by discriminate. unfold phone_layout.
    destruct (Nat.eqb (length (List.filter isdigit (c :: phone))) 10);
      [ cbn [app]; discriminate | ].
    destruct (Nat.eqb (length (List.filter isdigit (c :: phone))) 11
              && match List.filter isdigit (c :: phone) with
                 | d :: _ => N.eqb d Text.one
                 | [] => false
                 end);
      [ cbn [app]; discriminate | discriminate ]. }
  rewrite (format_by_layout isdigit _ NE), (format_keeps_digits isdigit H).
  rewrite format_by_layout by discriminate. unfold phone_layout.
  destruct (Nat.eqb (length (List.filter isdigit (c :: phone))) 10);
    [ reflexivity | ].
  destruct (Nat.eqb (length (List.filter isdigit (c :: phone))) 11
            && match List.filter isdigit (c :: phone) with
               | d :: _ => N.eqb d Text.one
               | [] => false
               end); reflexivity.
Qed.

Lemma X19_witness :
  Text.format_phone_number ascii_isdigit
    (Text.format_phone_number ascii_isdigit sample_phone)
  = Text.format_phone_number ascii_isdigit sample_phone.
Proof.
  apply (X19_format_phone_number_idempotent ascii_isdigit sample_phone).
  repeat split.
Defined.

(* ===================================================================== *)
(** ** Validation, progress and conversions of utils.py *)
(* ===================================================================== *)

Lemma missing_field (d : obj) (key : string) :
  str_or_missing d key ->
  (dict_get_default d key PyNone = PyNone
   /\ dict_get_default d key (PyStr "") = PyStr ""
   /\ text_of d key = "")
  \/ (dict_get_default d key PyNone = PyNone
      /\ dict_get_default d key (PyStr "") = PyNone
      /\ text_of d key = "")
  \/ (dict_get_default d key PyNone = PyStr (text_of d key)
      /\ dict_get_default d key (PyStr "") = PyStr (text_of d key)).
Proof.
  unfold str_or_missing, dict_get_default, text_of.
  intros [-> | [-> | [s ->]]]; auto.
Qed.

(** X20. For student data whose [student_id], [name] and [email] are
    strings, [None] or absent, [validate_student_data] never raises, and
    it accepts the data exactly when the student id starts with "S" or
    "s", the name is not empty, and the email is empty or contains "@";
    the error list is empty exactly then. *)
Theorem X20_validate_student_data_accepts :
  forall d : obj,
    str_or_missing d "student_id" ->
    str_or_missing d "name" ->
    str_or_missing d "email" ->
    exists errors,
      Validate.validate_student_data d = Ok (valid_fields d, errors)
      /\ (valid_fields d = true <-> errors = []).
Proof.
  intros d Hid Hname Hemail.
  unfold Validate.validate_student_data, Validate.check_required,
    Validate.required_fields, valid_fields.
  cbn [fold_left].
  destruct (missing_field d "student_id" Hid)
    as [[E1 [E1' T1]] | [[E1 [E1' T1]] | [E1 E1']]];
    destruct (missing_field d "name" Hname)
      as [[E2 [_ T2]] | [[E2 [_ T2]] | [E2 _]]];
    destruct (missing_field d "email" Hemail)
      as [[E3 [_ T3]] | [[E3 [_ T3]] | [E3 _]]];
    rewrite E1, E1', E2, E3; rewrite ?T1, ?T2, ?T3; clear;
    try (destruct (text_of d "student_id") as [ | c1 s1 ]);
    try (destruct (text_of d "name") as [ | c2 s2 ]);
    try (destruct (text_of d "email") as [ | c3 s3 ]);
    cbn -[contains_char Ascii.eqb];
    repeat match goal with
      | |- context [Ascii.eqb ?a ?b] => destruct (Ascii.eqb a b)
      | |- context [contains_char ?a ?b] => destruct (contains_char a b)
      end;
    cbn; eexists; (split; [ reflexivity | split; intros H; congruence ]).
Qed.

Lemma X20_witness :
  exists errors,
    Validate.validate_student_data
      (<["student_id" := PyStr "S1001"]>
         (<["name" := PyStr "Ada"]> (<["email" := PyStr "ada@uni.edu"]> ∅)))
    = Ok (valid_fields
            (<["student_id" := PyStr "S1001"]>
               (<["name" := PyStr "Ada"]> (<["email" := PyStr "ada@uni.edu"]> ∅))),
          errors)
    /\ (valid_fields
          (<["student_id" := PyStr "S1001"]>
             (<["name" := PyStr "Ada"]> (<["email" := PyStr "ada@uni.edu"]> ∅)))
        = true <-> errors = []).
Proof.
  apply (X20_validate_student_data_accepts
           (<["student_id" := PyStr "S1001"]>
              (<["name" := PyStr "Ada"]> (<["email" := PyStr "ada@uni.edu"]> ∅))));
    right; right; eexists; vm_compute; reflexivity.
Defined.

(** X21. The only exceptions of [calculate_semester_progress] are the
    division by zero, raised exactly when an explicit end date, the start
    date and today coincide, and the [OverflowError] of the default end
    date, raised exactly when the start date plus 120 days leaves the
    range of [date]. *)
Theorem X21_semester_progress_exceptions :
  forall (today start_date : Z) (end_date : option Z) (e : exc),
    Progress.calculate_semester_progress today start_date end_date = Throw e
    <-> (e = ZeroDivisionError
         /\ end_date = Some start_date /\ today = start_date)
        \/ (e = Builtin OverflowError
            /\ end_date = None
            /\ (start_date + 120 < 1 \/ Progress.date_max < start_date + 120)%Z).
Proof.
  intros today start_date end_date e.
  unfold Progress.calculate_semester_progress, Progress.date_add_days,
    Progress.date_max, mbind, outcome_bind.
  destruct end_date as [end_date | ].
  - destruct (Z.ltb_spec today start_date);
      [ split; [ discriminate | intros [[_ [[= ->] ->]] | [_ [[=] _]]]; lia ] | ].
    destruct (Z.ltb_spec end_date today);
      [ split; [ discriminate | intros [[_ [[= ->] ->]] | [_ [[=] _]]]; lia ] | ].
    destruct (Z.eqb_spec (end_date - start_date) 0).
    + split.
      * intros [= <-]. left. repeat split; [ f_equal | ]; lia.
      * intros [[-> _] | [_ [[=] _]]]. reflexivity.
    + split; [ discriminate | intros [[_ [[= ->] ->]] | [_ [[=] _]]]; lia ].
  - destruct (Z.leb_spec 1 (start_date + 120));
      destruct (Z.leb_spec (start_date + 120) 3652059); simpl;
      try (split;
           [ intros [= <-]; right; repeat split; lia
           | intros [[_ [[=] _]] | [-> _]]; reflexivity ]).
    destruct (Z.ltb_spec today start_date);
      [ split; [ discriminate | intros [[_ [[=] _]] | [_ [_ ?]]]; lia ] | ].
    destruct (Z.ltb_spec (start_date + 120) today);
      [ split; [ discriminate | intros [[_ [[=] _]] | [_ [_ ?]]]; lia ] | ].
    destruct (Z.eqb_spec (start_date + 120 - start_date) 0); [ lia | ].
    split; [ discriminate | intros [[_ [[=] _]] | [_ [_ ?]]]; lia ].
Qed.

(** X22. [safe_float] is not total: it returns the converted float, or
    the default for [None], a dict or a malformed string, but an int
    beyond the double range makes it raise; that [OverflowError] is the
    only exception it lets through. *)
Theorem X22_safe_float_raises_only_on_huge_int :
  forall (float_of_string : string -> option float) (value default : pyval)
         (e : exn),
    Convert.safe_float float_of_string value default = Raise e
    <-> e = OverflowError
        /\ exists z, value = PyInt z
                     /\ PrimFloat.is_infinity (float_of_Z z) = true.
Proof.
  intros p value default e. unfold Convert.safe_float, Predict.py_float.
  destruct value as [ | b | z | f | s | d ];
    try (split; [ discriminate | intros [_ [z' [[=] _]]] ]).
  - destruct (PrimFloat.is_infinity (float_of_Z z)) eqn:E.
    + split; [ intros [= <-]; split; [ reflexivity | eauto ]
             | intros [-> _]; reflexivity ].
    + split; [ discriminate | intros [_ [z' [[= <-] H]]]; congruence ].
  - destruct (p s); split; try discriminate; intros [_ [z' [[=] _]]].
Qed.

(** X23. [safe_int] is not total either: a NaN gives the default, but an
    infinite float makes it raise, and that [OverflowError] is the only
    exception it lets through. *)
Theorem X23_safe_int_raises_only_on_infinity :
  forall (int_of_string : string -> option Z) (value default : pyval),
    Convert.safe_int int_of_string (PyFloat nan) default = Ok default
    /\ forall e : exn,
        Convert.safe_int int_of_string value default = Raise e
        <-> e = OverflowError
            /\ (value = PyFloat infinity \/ value = PyFloat neg_infinity).
Proof.
  intros p value default. split; [ reflexivity | ]. intros e.
  unfold Convert.safe_int, Convert.py_int.
  destruct value as [ | b | z | f | s | d ];
    try (split; [ discriminate | intros [_ [[=] | [=]]] ]).
  - destruct (Prim2SF f) as [ sg | sg | | sg m ex ] eqn:E; simpl.
    + split; [ discriminate | ].
      intros [_ [[= ->] | [= ->]]]; vm_compute in E; discriminate E.
    + split.
      * intros [= <-]. split; [ reflexivity | ].
        rewrite <- (SF2Prim_Prim2SF f), E. destruct sg; auto.
      * intros [-> _]. reflexivity.
    + split; [ discriminate | ].
      intros [_ [[= ->] | [= ->]]]; vm_compute in E; discriminate E.
    + split; [ discriminate | ].
      intros [_ [[= ->] | [= ->]]]; vm_compute in E; discriminate E.
  - destruct (p s); split; try discriminate; intros [_ [[=] | [=]]].
Qed.

(* ===================================================================== *)
(** ** The student report, the role check and the seeded risk label *)
(* ===================================================================== *)

Section Reports.

Variable format_1f : pyval -> string.
Variable now_isoformat : string.

Lemma threshold_recommendation_high (metrics : pyval) (key : string)
  (bound : Z) (entry : string -> Report.recommendation)
  (recs recs' : list Report.recommendation) :
  (forall shown, Report.priority (entry shown) = "high") ->
  Forall (fun r => Report.priority r = "high") recs ->
  Report.threshold_recommendation format_1f metrics key bound entry recs
  = Return recs' ->
  Forall (fun r => Report.priority r = "high") recs'
  /\ (recs <> [] -> recs' <> []).
Proof.
  intros He Hr. unfold Report.threshold_recommendation, mbind, outcome_bind.
  destruct (py_get metrics key (PyInt 0)) as [v | e]; [ | discriminate ].
  destruct (of_result (py_lt_int v bound)) as [[ | ] | e]; [ | | discriminate ].
  - destruct (py_getitem metrics key) as [shown | e]; [ | discriminate ].
    intros [= <-]. split.
    + apply Forall_app. split; [ exact Hr | repeat constructor; apply He ].
    + intros _. destruct recs; discriminate.
  - intros [= <-]. auto.
Qed.

Lemma report_recommendations (student_data : obj) (r : Report.report) :
  Report.generate_student_report format_1f now_isoformat student_data = Return r ->
  Report.recommendations r = [Report.keep_going]
  \/ (Report.recommendations r <> []
      /\ Forall (fun x => Report.priority x = "high")
           (Report.recommendations r)).
Proof.
  unfold Report.generate_student_report, mbind, outcome_bind.
  destruct (py_get _ "level" _) as [risk_level | e]; [ | discriminate ].
  destruct (Report.threshold_recommendation format_1f _ "grade_average" _ _ [])
    as [recs1 | e] eqn:E1; [ | discriminate ].
  destruct (Report.threshold_recommendation format_1f _ "attendance_rate" _ _ recs1)
    as [recs2 | e] eqn:E2; [ | discriminate ].
  intros [= <-]. simpl.
  destruct (threshold_recommendation_high _ _ _ Report.low_grade _ _
              (fun _ => eq_refl) (List.Forall_nil _) E1) as [H1 _].
  destruct (threshold_recommendation_high _ _ _ Report.low_attendance _ _
              (fun _ => eq_refl) H1 E2) as [H2 _].
  destruct (py_eq_str risk_level "High Risk").
  - right. replace (Nat.eqb (length (recs2 ++ [Report.advisor])) 0) with false
      by (rewrite length_app; simpl; destruct (length recs2); reflexivity).
    split; [ destruct recs2; discriminate | ].
    apply Forall_app. split; [ exact H2 | repeat constructor ].
  - destruct recs2 as [ | x recs2 ]; [ left; reflexivity | right ].
    split; [ discriminate | exact H2 ].
Qed.

Lemma report_needs_grade_average (student_data : obj) :
  is_dict (dict_get_default student_data "risk_assessment" (PyDict [])) ->
  lacks_key (dict_get_default student_data "metrics" (PyDict [])) "grade_average" ->
  Report.generate_student_report format_1f now_isoformat student_data
  = Throw KeyError.
Proof.
  unfold Report.generate_student_report, Report.threshold_recommendation,
    mbind, outcome_bind.
  destruct (dict_get_default student_data "risk_assessment" (PyDict []));
    simpl; try contradiction.
  intros _.
  destruct (dict_get_default student_data "metrics" (PyDict []));
    simpl; try contradiction.
  intros ->. reflexivity.
Qed.

End Reports.

(** X24. Whenever [generate_student_report] returns, its recommendations
    are either the single low-priority entry "Continue current support"
    or a non-empty list of high-priority entries: the list is never empty
    and the low-priority entry never stands beside another one. *)
Theorem X24_report_recommendations_never_empty :
  forall (format_1f : pyval -> string) (now_isoformat : string)
         (student_data : obj) (r : Report.report),
    Report.generate_student_report format_1f now_isoformat student_data
    = Return r ->
    Report.recommendations r = [Report.keep_going]
    \/ (Report.recommendations r <> []
        /\ Forall (fun x => Report.priority x = "high")
             (Report.recommendations r)).
Proof. exact report_recommendations. Qed.

Lemma X24_witness :
  Report.recommendations
    {| Report.student_info :=
         [ ("name", PyStr ""); ("student_id", PyStr ""); ("email", PyStr "");
           ("enrollment_date", PyStr "") ];
       Report.academic_metrics :=
         PyDict [("grade_average", PyFloat 82); ("attendance_rate", PyFloat 91)];
       Report.risk_assessment := PyDict [];
       Report.recommendations := [Report.keep_going];
       Report.generated_at := "2024-01-01T00:00:00" |}
  = [Report.keep_going]
  \/ (Report.recommendations
        {| Report.student_info :=
             [ ("name", PyStr ""); ("student_id", PyStr ""); ("email", PyStr "");
               ("enrollment_date", PyStr "") ];
           Report.academic_metrics :=
             PyDict [("grade_average", PyFloat 82);
                     ("attendance_rate", PyFloat 91)];
           Report.risk_assessment := PyDict [];
           Report.recommendations := [Report.keep_going];
           Report.generated_at := "2024-01-01T00:00:00" |} <> []
      /\ Forall (fun x => Report.priority x = "high")
           (Report.recommendations
              {| Report.student_info :=
                   [ ("name", PyStr ""); ("student_id", PyStr "");
                     ("email", PyStr ""); ("enrollment_date", PyStr "") ];
                 Report.academic_metrics :=
                   PyDict [("grade_average", PyFloat 82);
                           ("attendance_rate", PyFloat 91)];
                 Report.risk_assessment := PyDict [];
                 Report.recommendations := [Report.keep_going];
                 Report.generated_at := "2024-01-01T00:00:00" |})).
Proof.
  apply (X24_report_recommendations_never_empty (fun _ => "")
           "2024-01-01T00:00:00"
           (<["metrics" :=
                PyDict [("grade_average", PyFloat 82);
                        ("attendance_rate", PyFloat 91)]]> ∅)).
  vm_compute. reflexivity.
Defined.

(** X25. [generate_student_report] raises [KeyError] when the metrics
    carry no [grade_average] (in particular when the student data has no
    [metrics] at all): the missing value is read as 0, which is below 60,
    and the reason of the recommendation then indexes the missing key. *)
Theorem X25_report_raises_without_grade_average :
  forall (format_1f : pyval -> string) (now_isoformat : string)
         (student_data : obj),
    is_dict (dict_get_default student_data "risk_assessment" (PyDict [])) ->
    lacks_key (dict_get_default student_data "metrics" (PyDict []))
      "grade_average" ->
    Report.generate_student_report format_1f now_isoformat student_data
    = Throw KeyError.
Proof. exact report_needs_grade_average. Qed.

Lemma X25_witness :
  Report.generate_student_report (fun _ => "") "2024-01-01T00:00:00"
    (<["name" := PyStr "Ada"]> ∅) = Throw KeyError.
Proof.
  apply (X25_report_raises_without_grade_average (fun _ => "")
           "2024-01-01T00:00:00" (<["name" := PyStr "Ada"]> ∅)).
  - vm_compute. exact I.
  - vm_compute. reflexivity.
Defined.

(** X26. [has_role] reads the hierarchy downwards: whoever passes the
    check for "viewer" passes the one for "teacher", and whoever passes
    that passes the one for "admin"; a user whose role is "admin" passes
    only the check for "admin", and a role name outside the hierarchy is
    passed by nobody. *)
Theorem X26_has_role_hierarchy :
  forall role : pyval,
    (Models.has_role role "viewer" = true ->
     Models.has_role role "teacher" = true)
    /\ (Models.has_role role "teacher" = true ->
        Models.has_role role "admin" = true)
    /\ Models.has_role (PyStr "admin") "teacher" = false
    /\ Models.has_role (PyStr "admin") "viewer" = false
    /\ Models.has_role (PyStr "admin") "admin" = true
    /\ forall role_name : string,
        role_name <> "admin" -> role_name <> "teacher" ->
        role_name <> "viewer" ->
        Models.has_role role role_name = false.
Proof.
  intros role. unfold Models.has_role, Models.role_hierarchy.
  repeat split; try reflexivity.
  - simpl. destruct (py_eq_str role "teacher"), (py_eq_str role "viewer");
      simpl; congruence.
  - simpl. destruct (py_eq_str role "admin"), (py_eq_str role "teacher"),
      (py_eq_str role "viewer"); simpl; congruence.
  - intros role_name Ha Ht Hv. cbn [find fst snd].
    destruct (String.eqb_spec "admin" role_name); [ congruence | ].
    destruct (String.eqb_spec "teacher" role_name); [ congruence | ].
    destruct (String.eqb_spec "viewer" role_name); [ congruence | ].
    reflexivity.
Qed.

Lemma X26_witness :
  Models.has_role (PyStr "viewer") "teacher" = true
  /\ Models.has_role (PyStr "viewer") "admin" = true
  /\ Models.has_role (PyStr "viewer") "principal" = false.
Proof.
  destruct (X26_has_role_hierarchy (PyStr "viewer")) as [H1 [H2 [_ [_ [_ H3]]]]].
  split; [ apply H1; reflexivity | ].
  split; [ apply H2, H1; reflexivity | ].
  apply H3; discriminate.
Defined.

(** X27. The risk label that [init_db.py] stores with the sample data
    is the one [calculate_risk_level] computes from the same grade and
    attendance values, exceptions included. *)
Theorem X27_seeded_label_agrees_with_fallback :
  forall g a : pyval,
    InitDb.risk_level g a = Predictor.calculate_risk_level (student_with g a).
Proof.
  intros g a. unfold InitDb.risk_level, Predictor.calculate_risk_level.
  run_py. rewrite student_with_grade, student_with_attendance. reflexivity.
Qed.
